(** * GenAI-3-05: the SEO content generation and validation pipeline

    A shallow embedding of [seo_content_system.py]: language detection,
    keyword synthesis, the three field generators, the validator, the
    orchestrator [run] and the report formatter, together with the
    properties of the pipeline.

    Python strings are sequences of Unicode code points, so [str] is a
    list of code points; the completion service, the clock and the file
    system are an explicit world that every effectful step threads. *)

From Stdlib Require Import ZArith NArith Ascii String DecimalString SpecFloat.
From stdpp Require Import base list strings gmap sets.

Local Open Scope N_scope.

(** ** Python strings *)

Definition char := N.
Definition str := list char.

(** Python floats are binary64 values. *)
Definition float := spec_float.

Module Utf8.

(** The source file is UTF-8; literals are written as they stand there
    and decoded to code points. *)
Fixpoint decode (bs : list N) : str :=
  match bs with
  | [] => []
  | b :: r =>
      if b <? 128 then b :: decode r
      else if b <? 224 then
        match r with
        | c :: r' => ((b - 192) * 64 + (c - 128)) :: decode r'
        | [] => []
        end
      else if b <? 240 then
        match r with
        | c :: d :: r' =>
            ((b - 224) * 4096 + (c - 128) * 64 + (d - 128)) :: decode r'
        | _ => []
        end
      else
        match r with
        | c :: d :: e :: r' =>
            ((b - 240) * 262144 + (c - 128) * 4096 + (d - 128) * 64 + (e - 128))
              :: decode r'
        | _ => []
        end
  end.

Definition bytes (s : string) : list N :=
  map N_of_ascii (list_ascii_of_string s).

Definition lit (s : string) : str := decode (bytes s).

End Utf8.

Notation "'u' s" := (Utf8.lit s%string) (at level 1, s at level 0, only parsing).

Module Py.

(** [str.isspace] on one code point, which is also what [str.strip]
    and the regular expression class [\s] test. *)
Definition isspace (c : char) : bool :=
  ((9 <=? c) && (c <=? 13)) || ((28 <=? c) && (c <=? 32))
  || (c =? 133) || (c =? 160) || (c =? 5760)
  || ((8192 <=? c) && (c <=? 8202))
  || (c =? 8232) || (c =? 8233) || (c =? 8239) || (c =? 8287) || (c =? 12288).

(** The line boundaries of [str.splitlines]. *)
Definition islinebreak (c : char) : bool :=
  ((10 <=? c) && (c <=? 13)) || ((28 <=? c) && (c <=? 30))
  || (c =? 133) || (c =? 8232) || (c =? 8233).

Fixpoint lstrip (s : str) : str :=
  match s with
  | [] => []
  | c :: r => if isspace c then lstrip r else s
  end.

Definition rstrip (s : str) : str := reverse (lstrip (reverse s)).

Definition strip (s : str) : str := rstrip (lstrip s).

(** [s.splitlines()]: [cur] is the line being read, reversed. *)
Fixpoint splitlines_from (cur : str) (s : str) : list str :=
  match s with
  | [] => match cur with [] => [] | _ => [reverse cur] end
  | c :: r =>
      if c =? 13 then
        match r with
        | 10 :: r' => reverse cur :: splitlines_from [] r'
        | _ => reverse cur :: splitlines_from [] r
        end
      else if islinebreak c then reverse cur :: splitlines_from [] r
      else splitlines_from (c :: cur) r
  end.

Definition splitlines (s : str) : list str := splitlines_from [] s.

(** [sep.join(items)]. *)
Fixpoint join (sep : str) (items : list str) : str :=
  match items with
  | [] => []
  | [x] => x
  | x :: r => x ++ sep ++ join sep r
  end.

(** [s[:n]] for a Python integer [n]: a negative bound counts from the
    end. *)
Definition slice_to {A} (l : list A) (n : Z) : list A :=
  if (0 <=? n)%Z then take (Z.to_nat n) l
  else take (length l - Z.to_nat (- n))%nat l.

(** [p in s] on strings. *)
Fixpoint startswith (s p : str) {struct p} : bool :=
  match p, s with
  | [], _ => true
  | _ :: _, [] => false
  | a :: p', b :: s' => (a =? b) && startswith s' p'
  end.

Fixpoint contains (s p : str) : bool :=
  startswith s p ||
  match s with
  | [] => false
  | _ :: s' => contains s' p
  end.

(** Comparison of strings, code point by code point. *)
Fixpoint le (a b : str) : bool :=
  match a, b with
  | [], _ => true
  | _ :: _, [] => false
  | x :: a', y :: b' => (x <? y) || ((x =? y) && le a' b')
  end.

(** [str(n)] and [f"{n}"] for an integer. *)
Definition str_of_int (n : Z) : str :=
  Utf8.bytes (NilEmpty.string_of_int (Z.to_int n)).

(** Truth value of a list or string. *)
Definition truthy {A} (l : list A) : bool :=
  match l with [] => false | _ => true end.

(** Lowercasing of one ASCII letter. *)
Definition ascii_lower (c : char) : char :=
  if (65 <=? c) && (c <=? 90) then c + 32 else c.

Definition isascii (s : str) : bool := forallb (fun c => c <? 128) s.

(** The parts of the Unicode database the program reaches through
    [str.lower] and the class [\d]; what is assumed of them is their
    behaviour on ASCII. *)
Class Unicode := {
  lower : str -> str;
  isdecimal : char -> bool;
  lower_ascii : forall s, isascii s = true -> lower s = map ascii_lower s;
  isdecimal_ascii : forall c, c < 128 -> isdecimal c = (48 <=? c) && (c <=? 57)
}.

End Py.

Import Py.

(** [p] occurs in [s] as a contiguous block: what [p in s] decides. *)
Definition Occurs (p s : str) : Prop := exists a b, s = a ++ p ++ b.

(** ** Utilities *)

Section Utilities.
Context {U : Unicode}.

(** Number of items of [text] that satisfy [f]: [sum(f(ch) for ch in text)]. *)
Definition count_true (f : char -> bool) (text : str) : Z :=
  foldr (fun ch acc => ((if f ch then 1 else 0) + acc)%Z) 0%Z text.

Definition detect_language (text : str) : str :=
  let cyr := count_true (fun ch =>
               (Py.le u"а" (lower [ch]) && Py.le (lower [ch]) u"я")
               || bool_decide (ch = 1105)) text in
  let lat := count_true (fun ch =>
               Py.le u"a" (lower [ch]) && Py.le (lower [ch]) u"z") text in
  if (lat <=? cyr)%Z then u"ru" else u"en".

Definition missing_keywords (text : str) (keywords : option (list str)) : list str :=
  match keywords with
  | None | Some [] => []
  | Some kws =>
      let t := lower text in
      filter (fun kw => Py.contains t (lower kw) = false) kws
  end.

(** The character class of the pattern [^[\-\d\.\)\s]+]. *)
Definition is_marker (c : char) : bool :=
  (c =? 45) || isdecimal c || (c =? 46) || (c =? 41) || Py.isspace c.

(** [re.sub(r'^[\-\d\.\)\s]+', '', line)]: the longest run of marker
    characters at the start of the line is removed. *)
Fixpoint strip_markers (line : str) : str :=
  match line with
  | [] => []
  | c :: r => if is_marker c then strip_markers r else line
  end.

(** The list comprehension of [generate_synthetic_keywords]. *)
Definition keyword_lines (text : str) : list str :=
  map (fun line => Py.strip (strip_markers line))
      (filter (fun line => Py.truthy (Py.strip line) = true) (Py.splitlines text)).

(** The loop over [kws] with its [seen] set and [result] list. *)
Fixpoint dedup_loop (kws : list str) (seen : gset str) (result : list str) : list str :=
  match kws with
  | [] => result
  | kw :: rest =>
      let low := lower kw in
      if decide (low ∈ seen) then dedup_loop rest seen result
      else dedup_loop rest ({[low]} ∪ seen) (result ++ [kw])
  end.

(** Everything [generate_synthetic_keywords] does after the service call. *)
Definition parse_keywords (text : str) (n : Z) : list str :=
  Py.slice_to (dedup_loop (keyword_lines text) ∅ []) n.

End Utilities.

(** ** Data model *)

Record FieldCheck := {
  length_ : Z;
  max_allowed : Z;
  ok_length : bool;
  missing_keywords_ : list str
}.

Record SEOResult := {
  topic : str;
  language : str;
  keywords : list str;
  meta_description : str;
  title : str;
  summary : str;
  checks : gmap string FieldCheck;
  model_used : str;
  timestamp : str
}.

(** ** The completion service and the other effects *)

Record Message := {
  content : option str;
  (** [None]: the attribute is absent; [Some None]: it is [None]. *)
  reasoning_content : option (option str)
}.

Record Choice := {
  message : Message;
  text : option str
}.

Record Response := { choices : list Choice }.

Record Request := {
  req_model : str;
  req_messages : list (str * str);
  req_temperature : float;
  req_top_p : float;
  req_max_tokens : Z
}.

Inductive exn :=
| APIConnectionError   (* the endpoint cannot be reached: ServiceUnavailable *)
| APIStatusError (code : Z)
| IndexError
| KeyError (key : string)
| OSError.

Inductive outcome (A : Type) :=
| Return (a : A)
| Raise (e : exn).
Arguments Return {A} a.
Arguments Raise {A} e.

(** What lies outside the program: the completion endpoint, the clock
    and the file system. *)
Class Env := {
  World : Type;
  create : Request -> World -> outcome Response * World;
  strftime : str -> World -> str * World;
  dump_json : str -> SEOResult -> World -> outcome unit * World
}.

Section Effects.
Context {E : Env}.

(** The state a run threads: the world, and the history of the calls
    made to the completion service (kept for the statements below; the
    program never reads it). *)
Record State := { world : World; calls : list (Request * outcome Response) }.

Definition M (A : Type) : Type := State -> outcome A * State.

Definition ret {A} (a : A) : M A := fun st => (Return a, st).

Definition raise {A} (e : exn) : M A := fun st => (Raise e, st).

Definition bind {A B} (m : M A) (k : A -> M B) : M B :=
  fun st =>
    match m st with
    | (Return a, st') => k a st'
    | (Raise e, st') => (Raise e, st')
    end.

Definition completions_create (req : Request) : M Response :=
  fun st =>
    let '(r, w) := create req (world st) in
    (r, {| world := w; calls := calls st ++ [(req, r)] |}).

Definition time_strftime (fmt : str) : M str :=
  fun st =>
    let '(s, w) := strftime fmt (world st) in
    (Return s, {| world := w; calls := calls st |}).

Definition write_json (path : str) (res : SEOResult) : M unit :=
  fun st =>
    let '(r, w) := dump_json path res (world st) in
    (r, {| world := w; calls := calls st |}).

End Effects.

Declare Scope py_scope.
Delimit Scope py_scope with py.
Notation "x <- m ;; k" := (bind m (fun x => k))
  (at level 100, m at next level, right associativity) : py_scope.

Local Open Scope py_scope.

(** ** The system *)

Record SEOContentSystem := {
  model : str;
  temperature : float;
  top_p : float
}.

(** [SEOContentSystem()] with the defaults of [__init__]. *)
Definition default_system : SEOContentSystem :=
  {| model := u"qwen2.5:3b-instruct";
     temperature := S754_finite false 6305039478318694 (-53);   (* 0.7 *)
     top_p := S754_finite false 8106479329266893 (-53) |}.      (* 0.9 *)

(** Truth value of something that is [None] or a string. *)
Definition is_true (o : option str) : bool :=
  match o with
  | Some (_ :: _) => true
  | _ => false
  end.

(** [a or b]. *)
Definition or_else (a b : option str) : option str :=
  if is_true a then a else b.

(** [x or d] where [x] is [None], a string or a list. *)
Definition or_default {A} (x : option (list A)) (d : list A) : list A :=
  match x with
  | Some ((_ :: _) as l) => l
  | _ => d
  end.

(** The text [_chat] extracts from the first choice of a response. *)
Definition choice_text (c : Choice) : str :=
  let msg := message c in
  let t := or_else (content msg) (text c) in
  let t := if negb (is_true t)
           then match reasoning_content msg with
                | Some rc => rc
                | None => t
                end
           else t in
  Py.strip (default [] (or_else t (Some []))).

(** The request [_chat] sends. *)
Definition chat_request (self : SEOContentSystem) (m system user : str) (max_tokens : Z)
  : Request :=
  {| req_model := m;
     req_messages := [(u"system", system); (u"user", user)];
     req_temperature := temperature self;
     req_top_p := top_p self;
     req_max_tokens := max_tokens |}.

(** The system and user instructions each generative step builds. *)

Definition keywords_prompt (topic language : str) (n : Z) : str * str :=
  if bool_decide (language = u"ru") then
    (u"Ты SEO-специалист. Отвечай списком, по одному слову или фразе на строку.",
     u"Сгенерируй " ++ Py.str_of_int n ++ u" релевантных ключевых слов по теме: "
       ++ topic ++ u".")
  else
    (u"You are an SEO specialist. Reply with a list, one keyword or phrase per line.",
     u"Generate " ++ Py.str_of_int n ++ u" relevant keywords for the topic: "
       ++ topic ++ u".").

(** [f"{intro}{', '.join(keywords)}." if keywords else ""]. *)
Definition keyword_clause (intro : str) (keywords : option (list str)) : str :=
  match keywords with
  | None | Some [] => []
  | Some kws => intro ++ Py.join u", " kws ++ u"."
  end.

Definition meta_description_prompt (topic language : str) (keywords : option (list str))
  : str * str :=
  if bool_decide (language = u"ru") then
    (u"Ты маркетолог. Ответь ТОЛЬКО meta description (до 150 символов).",
     u"Напиши meta description для сайта о " ++ topic ++ u"."
       ++ keyword_clause u" Включи слова: " keywords)
  else
    (u"You are a marketing specialist. Reply ONLY with a meta description (<=150 characters).",
     u"Write a meta description for a website about " ++ topic ++ u"."
       ++ keyword_clause u" Include words: " keywords).

Definition title_prompt (topic language : str) (keywords : option (list str))
  : str * str :=
  if bool_decide (language = u"ru") then
    (u"Ты SEO-копирайтер. Верни ТОЛЬКО заголовок (до 60 символов).",
     u"Создай кликабельный title по теме: " ++ topic ++ u"."
       ++ keyword_clause u" Добавь: " keywords)
  else
    (u"You are an SEO copywriter. Return ONLY a title (<=60 chars).",
     u"Create a catchy SEO title about: " ++ topic ++ u"."
       ++ keyword_clause u" Include: " keywords).

Definition summary_prompt (topic language : str) (keywords : option (list str))
  : str * str :=
  if bool_decide (language = u"ru") then
    (u"Ты редактор. Верни 1–2 предложения (до 300 символов).",
     u"Кратко опиши тему: " ++ topic ++ u"."
       ++ keyword_clause u" Включи: " keywords)
  else
    (u"You are an editor. Return 1–2 sentences (<=300 chars).",
     u"Briefly describe the topic: " ++ topic ++ u"."
       ++ keyword_clause u" Include: " keywords).

Section System.
Context {U : Unicode} {E : Env}.

Definition _chat (self : SEOContentSystem) (m system user : str) (max_tokens : Z)
  : M str :=
  resp <- completions_create (chat_request self m system user max_tokens) ;;
  match choices resp with
  | [] => raise IndexError
  | c :: _ => ret (choice_text c)
  end.

Definition generate_synthetic_keywords (self : SEOContentSystem)
    (topic language : str) (n : Z) : M (list str) :=
  let '(system, user) := keywords_prompt topic language n in
  text <- _chat self (model self) system user 200 ;;
  ret (parse_keywords text n).

Definition generate_meta_description (self : SEOContentSystem)
    (topic language : str) (keywords : option (list str)) : M str :=
  let '(sys, user) := meta_description_prompt topic language keywords in
  text <- _chat self (model self) sys user 120 ;;
  ret (Py.strip (Py.slice_to text 150)).

Definition generate_title (self : SEOContentSystem)
    (topic language : str) (keywords : option (list str)) : M str :=
  let '(sys, user) := title_prompt topic language keywords in
  text <- _chat self (model self) sys user 60 ;;
  ret (Py.strip (Py.slice_to text 60)).

Definition generate_summary (self : SEOContentSystem)
    (topic language : str) (keywords : option (list str)) : M str :=
  let '(sys, user) := summary_prompt topic language keywords in
  text <- _chat self (model self) sys user 180 ;;
  ret (Py.strip (Py.slice_to text 300)).

Definition _check_field (text : str) (max_len : Z) (keywords : option (list str))
  : FieldCheck :=
  {| length_ := Z.of_nat (length text);
     max_allowed := max_len;
     ok_length := (Z.of_nat (length text) <=? max_len)%Z;
     missing_keywords_ := missing_keywords text keywords |}.

Definition run (self : SEOContentSystem) (topic : str)
    (language : option str) (keywords : option (list str))
    (synth_keywords_if_missing : bool) (out_json_path : option str) : M SEOResult :=
  let lang := or_default language (detect_language topic) in
  let kws0 := or_default keywords [] in
  kws <- (if negb (Py.truthy kws0) && synth_keywords_if_missing
          then generate_synthetic_keywords self topic lang 8
          else ret kws0) ;;
  meta <- generate_meta_description self topic lang (Some kws) ;;
  title <- generate_title self topic lang (Some kws) ;;
  summary <- generate_summary self topic lang (Some kws) ;;
  (* [asdict] turns each check into the dict of its four fields, for
     which the record stands. *)
  let checks : gmap string FieldCheck :=
    <["summary" := _check_field summary 300 (Some kws)]>
      (<["title" := _check_field title 60 (Some kws)]>
         (<["meta_description" := _check_field meta 150 (Some kws)]> ∅)) in
  ts <- time_strftime u"%Y-%m-%d %H:%M:%S" ;;
  let result := {| topic := topic;
                   language := lang;
                   keywords := kws;
                   meta_description := meta;
                   title := title;
                   summary := summary;
                   checks := checks;
                   model_used := model self;
                   timestamp := ts |} in
  _ <- match out_json_path with
       | Some ((_ :: _) as path) => write_json path result
       | _ => ret tt
       end ;;
  ret result.

End System.

(** ** The report *)

Definition mark (ok : bool) : str := if ok then u"✓" else u"✗".

Definition list_or_dash (items : list str) : str :=
  match items with
  | [] => u"—"
  | _ => Py.join u", " items
  end.

(** [ch[key]]. *)
Definition getitem (ch : gmap string FieldCheck) (key : string) : outcome FieldCheck :=
  match ch !! key with
  | Some fc => Return fc
  | None => Raise (KeyError key)
  end.

Definition field_ok (fc : FieldCheck) : bool :=
  ok_length fc && negb (Py.truthy (missing_keywords_ fc)).

Definition field_header (name : str) (fc : FieldCheck) (value : str) : str :=
  name ++ u" (" ++ Py.str_of_int (length_ fc) ++ u"/" ++ Py.str_of_int (max_allowed fc)
    ++ u"): " ++ value.

Definition field_detail (fc : FieldCheck) : str :=
  u"  Длина ОК: " ++ mark (ok_length fc) ++ u"; Отсутствуют ключевые: "
    ++ list_or_dash (missing_keywords_ fc).

Definition verdict_line (ok : bool) : str :=
  u"Итоговая метрика (все требования выполнены): " ++ mark ok.

Definition report_lines (res : SEOResult) (m t s : FieldCheck) : list str :=
  [ u"Тема: " ++ topic res;
    u"Язык: " ++ language res;
    u"Ключевые слова: " ++ list_or_dash (keywords res);
    [];
    field_header u"TITLE" t (title res);
    field_detail t;
    [];
    field_header u"META" m (meta_description res);
    field_detail m;
    [];
    field_header u"SUMMARY" s (summary res);
    field_detail s;
    [];
    u"Модель: " ++ model_used res;
    u"Время: " ++ timestamp res;
    [];
    u"Базовый критерий: контент создан.";
    verdict_line (field_ok m && field_ok t && field_ok s) ].

Definition pretty_report (res : SEOResult) : outcome str :=
  let ch := checks res in
  match getitem ch "meta_description" with
  | Raise e => Raise e
  | Return m =>
      match getitem ch "title" with
      | Raise e => Raise e
      | Return t =>
          match getitem ch "summary" with
          | Raise e => Raise e
          | Return s => Return (Py.join [10] (report_lines res m t s))
          end
      end
  end.

(** ** Vocabulary of the statements *)

(** The requests the four generative steps send. *)
Definition keywords_request (self : SEOContentSystem) (topic language : str) (n : Z)
  : Request :=
  let '(system, user) := keywords_prompt topic language n in
  chat_request self (model self) system user 200.

Definition meta_description_request (self : SEOContentSystem) (topic language : str)
    (keywords : option (list str)) : Request :=
  let '(sys, user) := meta_description_prompt topic language keywords in
  chat_request self (model self) sys user 120.

Definition title_request (self : SEOContentSystem) (topic language : str)
    (keywords : option (list str)) : Request :=
  let '(sys, user) := title_prompt topic language keywords in
  chat_request self (model self) sys user 60.

Definition summary_request (self : SEOContentSystem) (topic language : str)
    (keywords : option (list str)) : Request :=
  let '(sys, user) := summary_prompt topic language keywords in
  chat_request self (model self) sys user 180.

(** The keyword resolution step of [run]. *)
Definition resolve_keywords {U : Unicode} {E : Env} (self : SEOContentSystem)
    (topic lang : str) (kw_arg : option (list str)) (synth : bool) : M (list str) :=
  if negb (Py.truthy (or_default kw_arg [])) && synth
  then generate_synthetic_keywords self topic lang 8
  else ret (or_default kw_arg []).

(** The lines of [lines] whose lowercase form is not that of an earlier
    line, in the order and in the spelling in which they stand there. *)
Definition first_seen {U : Unicode} (lines : list str) : list str :=
  (filter (fun jx : nat * str => lower jx.2 ∉ lower <$> take jx.1 lines)
          (imap pair lines)).*2.

(** A history of service calls is orderly for an outcome when a call
    that raised is the last call made and its exception is the outcome:
    nothing was sent after it, and nothing was returned. *)
Definition orderly {A} (out : outcome A) (new : list (Request * outcome Response)) : Prop :=
  forall i req e, new !! i = Some (req, Raise e) -> out = Raise e /\ S i = length new.

(** A computation extends the history by an orderly list of calls. *)
Definition tracks {E : Env} {A} (m : M A) : Prop :=
  forall st, exists new, calls (m st).2 = calls st ++ new /\ orderly (m st).1 new.

(** The service answered the request [req] in the world of [st] with a
    response whose first choice is [c]; [st'] is the state after it. *)
Definition answers {E : Env} (req : Request) (c : Choice) (st st' : State) : Prop :=
  exists resp cs,
    create req (world st) = (Return resp, world st') /\
    choices resp = c :: cs /\
    calls st' = calls st ++ [(req, Return resp)].

(** ** A scripted environment

    A completion service that answers from a script, a clock that shows
    one instant and a disk that either accepts every write or refuses
    every write; and the Unicode tables cut down to ASCII. *)

Module Mock.

Record script := {
  replies : list (outcome Response);
  disk_ok : bool;
  written : list (str * SEOResult)
}.

Definition mock_create (req : Request) (w : script) : outcome Response * script :=
  match replies w with
  | [] => (Raise APIConnectionError, w)
  | r :: rs => (r, {| replies := rs; disk_ok := disk_ok w; written := written w |})
  end.

Definition mock_strftime (fmt : str) (w : script) : str * script :=
  (u"2025-01-01 12:00:00", w).

Definition mock_dump_json (path : str) (res : SEOResult) (w : script)
  : outcome unit * script :=
  if disk_ok w
  then (Return tt, {| replies := replies w; disk_ok := true;
                      written := written w ++ [(path, res)] |})
  else (Raise OSError, w).

Definition env : Env :=
  {| World := script;
     create := mock_create;
     strftime := mock_strftime;
     dump_json := mock_dump_json |}.

(** A response whose first choice carries [s] as its content. *)
Definition says (s : str) : outcome Response :=
  Return {| choices := [ {| message := {| content := Some s; reasoning_content := None |};
                            text := None |} ] |}.

Definition start (rs : list (outcome Response)) (ok : bool) : State (E := env) :=
  {| world := ({| replies := rs; disk_ok := ok; written := [] |} : @World env);
     calls := [] |}.

Definition ascii_isdecimal (c : char) : bool := (48 <=? c) && (c <=? 57).

Definition unicode : Py.Unicode :=
  {| Py.lower := map Py.ascii_lower;
     Py.isdecimal := ascii_isdecimal;
     Py.lower_ascii := fun _ _ => eq_refl;
     Py.isdecimal_ascii := fun _ _ => eq_refl |}.

End Mock.


(** ** The command line *)

(** What [parser.parse_args()] hands to [main]: the topic, [--keywords]
    (absent, or the words given), [--language] (absent or given),
    [--model], [--no-synth] and [--out], the last three with their
    defaults filled in. *)
Record Args := {
  arg_topic : str;
  arg_keywords : option (list str);
  arg_language : option str;
  arg_model : str;
  arg_no_synth : bool;
  arg_out : str
}.

(** The arguments of [main] when only the topic is given. *)
Definition default_args (topic : str) : Args :=
  {| arg_topic := topic;
     arg_keywords := None;
     arg_language := None;
     arg_model := u"qwen2.5:3b-instruct";
     arg_no_synth := false;
     arg_out := u"seo_output.json" |}.

(** The standard output: [print(s)]. *)
Class Console (E : Env) := { print : str -> World -> World }.

Definition builtin_print {E : Env} {C : Console E} (s : str) : M unit :=
  fun st => (Return tt, {| world := print s (world st); calls := calls st |}).

(** [SEOContentSystem(model=m)]: the sampling parameters keep their
    defaults. *)
Definition new_system (m : str) : SEOContentSystem :=
  {| model := m;
     temperature := temperature default_system;
     top_p := top_p default_system |}.

Definition main {U : Unicode} {E : Env} {C : Console E} (args : Args) : M unit :=
  let system := new_system (arg_model args) in
  result <- run system (arg_topic args) (arg_language args) (arg_keywords args)
                (negb (arg_no_synth args)) (Some (arg_out args)) ;;
  match pretty_report result with
  | Raise e => raise e
  | Return report => builtin_print report
  end.

(** ** More vocabulary *)

Definition is_ascii_letter (c : char) : bool :=
  ((65 <=? c) && (c <=? 90)) || ((97 <=? c) && (c <=? 122)).

(** What every request of a system looks like: its model and sampling
    parameters, a system and a user message in this order, and one of
    the four token budgets. *)
Definition request_of (self : SEOContentSystem) (req : Request) : Prop :=
  req_model req = model self /\
  req_temperature req = temperature self /\
  req_top_p req = top_p self /\
  (exists sys usr, req_messages req = [(u"system", sys); (u"user", usr)]) /\
  req_max_tokens req ∈ [200; 120; 60; 180]%Z.

(** A computation makes at most [n] service calls, each with a request
    that satisfies [P]. *)
Definition emits {E : Env} {A} (P : Request -> Prop) (n : nat) (m : M A) : Prop :=
  forall st, exists new,
    calls (m st).2 = calls st ++ new /\
    (length new <= n)%nat /\
    Forall (fun c : Request * outcome Response => P c.1) new.

(** A scripted environment with a terminal: the scripted world and the
    lines printed so far. *)
Module Terminal.

Definition env : Env :=
  {| World := Mock.script * list str;
     create := fun req w =>
       let '(r, w') := Mock.mock_create req w.1 in (r, (w', w.2));
     strftime := fun fmt w =>
       let '(s, w') := Mock.mock_strftime fmt w.1 in (s, (w', w.2));
     dump_json := fun path res w =>
       let '(r, w') := Mock.mock_dump_json path res w.1 in (r, (w', w.2)) |}.

Definition console : Console env :=
  {| print := fun s (w : @World env) => ((w.1, w.2 ++ [s]) : @World env) |}.

Definition start (rs : list (outcome Response)) (ok : bool) : State (E := env) :=
  {| world := (({| Mock.replies := rs; Mock.disk_ok := ok; Mock.written := [] |}, [])
               : @World env);
     calls := [] |}.

End Terminal.
(** * Properties *)

(** ** Strings *)

Section StringFacts.

Example decode_ex : u"Тё—✓" = [1058; 1105; 8212; 10003].
Proof. reflexivity. Qed.

Example splitlines_ex :
  Py.splitlines (u"ab" ++ [13; 10] ++ u"cd" ++ [10; 10] ++ u"e" ++ [10])
  = [u"ab"; u"cd"; []; u"e"].
Proof. reflexivity. Qed.

Example strip_ex : Py.strip ([32; 9] ++ u"a b" ++ [160; 10]) = u"a b".
Proof. reflexivity. Qed.

Example slice_to_ex :
  (Py.slice_to u"abcde" 3, Py.slice_to u"abcde" 9, Py.slice_to u"abcde" (-2))
  = (u"abc", u"abcde", u"abc").
Proof. reflexivity. Qed.

Example str_of_int_ex :
  map Py.str_of_int [0; 8; -12; 150]%Z = [u"0"; u"8"; u"-12"; u"150"].
Proof. reflexivity. Qed.

Example or_default_ex :
  (or_default (Some u"ru") u"en", or_default (Some []) u"en", or_default None u"en")
  = (u"ru", u"en", u"en").
Proof. reflexivity. Qed.

(** The fallbacks of [_chat]: an empty content gives way to the text of
    the choice, and both to the reasoning content when there is one. *)
Example choice_text_ex :
  map choice_text
    [ {| message := {| content := Some u" hi "; reasoning_content := None |};
         text := Some u"alt" |};
      {| message := {| content := Some []; reasoning_content := None |};
         text := Some u"alt" |};
      {| message := {| content := None; reasoning_content := Some (Some u"why") |};
         text := None |};
      {| message := {| content := None; reasoning_content := Some None |};
         text := None |} ]
  = [u"hi"; u"alt"; u"why"; []].
Proof. reflexivity. Qed.

(** [lstrip] removes a prefix of whitespace and stops at the first
    character that is not. *)
Lemma lstrip_split (s : str) :
  exists pre, s = pre ++ Py.lstrip s /\ forallb Py.isspace pre = true.
Proof.
  induction s as [|c r [pre [Hr Hpre]]]; simpl.
  - by exists [].
  - destruct (Py.isspace c) eqn:Hc.
    + exists (c :: pre); simpl. rewrite Hc, Hpre. split; [by f_equal | done].
    + by exists [].
Qed.

Lemma lstrip_head (s : str) (c : char) :
  head (Py.lstrip s) = Some c -> Py.isspace c = false.
Proof.
  induction s as [|d r IH]; simpl; [done |].
  destruct (Py.isspace d) eqn:Hd; [done |]. simpl. by intros [= <-].
Qed.

Lemma lstrip_id (s : str) :
  (forall c, head s = Some c -> Py.isspace c = false) -> Py.lstrip s = s.
Proof.
  destruct s as [|c r]; simpl; [done |]. intros H. by rewrite (H c eq_refl).
Qed.

Lemma lstrip_length (s : str) : (length (Py.lstrip s) <= length s)%nat.
Proof.
  destruct (lstrip_split s) as [pre [Hs _]].
  rewrite Hs at 2. rewrite length_app. lia.
Qed.

Lemma rstrip_length (s : str) : (length (Py.rstrip s) <= length s)%nat.
Proof.
  unfold Py.rstrip. rewrite length_reverse.
  etransitivity; [apply lstrip_length |]. by rewrite length_reverse.
Qed.

Lemma strip_length (s : str) : (length (Py.strip s) <= length s)%nat.
Proof.
  unfold Py.strip. etransitivity; [apply rstrip_length | apply lstrip_length].
Qed.

(** [rstrip] keeps a prefix. *)
Lemma rstrip_split (s : str) :
  exists suf, s = Py.rstrip s ++ suf /\ forallb Py.isspace suf = true.
Proof.
  unfold Py.rstrip. destruct (lstrip_split (reverse s)) as [pre [Hs Hpre]].
  exists (reverse pre). split.
  - rewrite <- reverse_app, <- Hs. by rewrite reverse_involutive.
  - rewrite forallb_forall in *. intros c Hc. apply Hpre.
    apply list_elem_of_In. apply list_elem_of_In in Hc.
    rewrite elem_of_reverse in Hc. exact Hc.
Qed.

Lemma rstrip_last (s : str) (c : char) :
  last (Py.rstrip s) = Some c -> Py.isspace c = false.
Proof. unfold Py.rstrip. rewrite last_reverse. apply lstrip_head. Qed.

Lemma rstrip_id (s : str) :
  (forall c, last s = Some c -> Py.isspace c = false) -> Py.rstrip s = s.
Proof.
  intros H. unfold Py.rstrip. rewrite lstrip_id.
  - apply reverse_involutive.
  - intros c. rewrite head_reverse. apply H.
Qed.

Lemma strip_id (s : str) :
  (forall c, head s = Some c -> Py.isspace c = false) ->
  (forall c, last s = Some c -> Py.isspace c = false) ->
  Py.strip s = s.
Proof. intros Hh Hl. unfold Py.strip. rewrite (lstrip_id s Hh). by apply rstrip_id. Qed.

Lemma strip_head (s : str) (c : char) :
  head (Py.strip s) = Some c -> Py.isspace c = false.
Proof.
  unfold Py.strip. destruct (rstrip_split (Py.lstrip s)) as [suf [Hs _]].
  intros Hc. apply (lstrip_head s). rewrite Hs.
  destruct (Py.rstrip (Py.lstrip s)); [done | exact Hc].
Qed.

Lemma strip_last (s : str) (c : char) :
  last (Py.strip s) = Some c -> Py.isspace c = false.
Proof. apply rstrip_last. Qed.

(** A string that [strip] does not shorten is left as it is. *)
Lemma strip_same_length (s : str) :
  length (Py.strip s) = length s -> Py.strip s = s.
Proof.
  unfold Py.strip. intros Hlen.
  destruct (lstrip_split s) as [pre [Hs _]].
  destruct (rstrip_split (Py.lstrip s)) as [suf [Hr _]].
  pose proof (lstrip_length s) as H1.
  pose proof (rstrip_length (Py.lstrip s)) as H2.
  assert (length pre = 0%nat) as Hpre.
  { apply (f_equal length) in Hs. rewrite length_app in Hs. lia. }
  assert (length suf = 0%nat) as Hsuf.
  { apply (f_equal length) in Hr. rewrite length_app in Hr. lia. }
  destruct pre; [|done]. destruct suf; [|done].
  rewrite app_nil_r in Hr. simpl in Hs. congruence.
Qed.

Lemma slice_to_length {A} (l : list A) (n : Z) :
  (0 <= n)%Z -> (Z.of_nat (length (Py.slice_to l n)) <= n)%Z.
Proof.
  intros Hn. unfold Py.slice_to.
  destruct (Z.leb_spec 0 n); [|lia]. rewrite length_take. lia.
Qed.

Lemma slice_to_nonneg {A} (l : list A) (n : Z) :
  (0 <= n)%Z -> Py.slice_to l n = take (Z.to_nat n) l.
Proof. intros Hn. unfold Py.slice_to. by destruct (Z.leb_spec 0 n); [|lia]. Qed.

Lemma slice_to_prefix {A} (l : list A) (n : Z) : Py.slice_to l n `prefix_of` l.
Proof. unfold Py.slice_to. destruct (0 <=? n)%Z; apply prefix_take. Qed.

(** What a field generator does to the text of the service: the result
    fits the limit. *)
Lemma truncated_length (s : str) (limit : Z) :
  (0 <= limit)%Z -> (Z.of_nat (length (Py.strip (Py.slice_to s limit))) <= limit)%Z.
Proof.
  intros Hl. pose proof (strip_length (Py.slice_to s limit)).
  pose proof (slice_to_length s limit Hl). lia.
Qed.

Lemma startswith_spec (s p : str) :
  Py.startswith s p = true <-> exists b, s = p ++ b.
Proof.
  revert s. induction p as [|a p IH]; intros s; simpl.
  - split; [intros _; by exists s | done].
  - destruct s as [|b s].
    + split; [done | by intros [? ?]].
    + rewrite andb_true_iff, IH, N.eqb_eq. split.
      * intros [-> [t ->]]. by exists t.
      * intros [t [= -> ->]]. split; [done | by exists t].
Qed.

Lemma contains_spec (s p : str) : Py.contains s p = true <-> Occurs p s.
Proof.
  unfold Occurs. induction s as [|c s IH]; simpl.
  - rewrite orb_false_r, startswith_spec. split.
    + intros [b Hb]. by exists [], b.
    + intros [a [b Hab]]. symmetry in Hab.
      apply app_eq_nil in Hab as [-> Hab]. apply app_eq_nil in Hab as [-> ->].
      by exists [].
  - rewrite orb_true_iff, startswith_spec, IH. split.
    + intros [[b Hb] | [a [b Hab]]].
      * by exists [], b.
      * exists (c :: a), b. simpl. by f_equal.
    + intros [[|d a] [b Hab]].
      * left. by exists b.
      * right. injection Hab as -> ->. by exists a, b.
Qed.

#[global] Instance Occurs_dec (p s : str) : Decision (Occurs p s).
Proof.
  destruct (Py.contains s p) eqn:H.
  - left. by apply contains_spec.
  - right. intros Ho. apply contains_spec in Ho. congruence.
Defined.

End StringFacts.

(** ** The monad and the service calls *)

Section EffectFacts.
Context {E : Env}.

Lemma bind_Return {A B} (m : M A) (k : A -> M B) st b st' :
  bind m k st = (Return b, st') ->
  exists a st1, m st = (Return a, st1) /\ k a st1 = (Return b, st').
Proof.
  unfold bind. destruct (m st) as [[a|e] st1]; [|done]. intros H. by exists a, st1.
Qed.

Lemma ret_Return {A} (a b : A) st st' : ret a st = (Return b, st') -> a = b /\ st = st'.
Proof. unfold ret. by intros [= -> ->]. Qed.

Lemma orderly_nil {A} (out : outcome A) : orderly out [].
Proof. intros i req e H. by rewrite lookup_nil in H. Qed.

Lemma tracks_ret {A} (a : A) : tracks (ret a).
Proof.
  intros st. exists []. simpl. rewrite app_nil_r. split; [done | apply orderly_nil].
Qed.

Lemma tracks_raise {A} (e : exn) : tracks (raise (A := A) e).
Proof.
  intros st. exists []. simpl. rewrite app_nil_r. split; [done | apply orderly_nil].
Qed.

Lemma tracks_bind {A B} (m : M A) (k : A -> M B) :
  tracks m -> (forall a, tracks (k a)) -> tracks (bind m k).
Proof.
  intros Hm Hk st. destruct (Hm st) as [new1 [Hc1 Ho1]]. unfold bind.
  destruct (m st) as [[a|e] st1] eqn:Hst; simpl in *.
  - destruct (Hk a st1) as [new2 [Hc2 Ho2]].
    exists (new1 ++ new2). split.
    + rewrite Hc2, Hc1. by rewrite app_assoc.
    + intros i req e Hi.
      destruct (decide (i < length new1)%nat) as [Hlt|Hge].
      * rewrite lookup_app_l in Hi by done.
        by destruct (Ho1 i req e Hi) as [? _].
      * rewrite lookup_app_r in Hi by lia.
        destruct (Ho2 _ req e Hi) as [-> Hlen].
        split; [done |]. rewrite length_app. lia.
  - exists new1. split; [done |].
    intros i req e' Hi. by destruct (Ho1 i req e' Hi) as [[= ->] Hlen].
Qed.

Lemma tracks_create (req : Request) : tracks (completions_create req).
Proof.
  intros st. unfold completions_create.
  destruct (create req (world st)) as [r w] eqn:Hr. simpl.
  exists [(req, r)]. split; [done |].
  intros [|i] req' e Hi; simpl in Hi; [|by rewrite lookup_nil in Hi].
  by injection Hi as -> ->.
Qed.

Lemma tracks_strftime (fmt : str) : tracks (time_strftime fmt).
Proof.
  intros st. unfold time_strftime. destruct (strftime fmt (world st)) as [s w]. simpl.
  exists []. rewrite app_nil_r. split; [done | apply orderly_nil].
Qed.

Lemma tracks_write (path : str) (res : SEOResult) : tracks (write_json path res).
Proof.
  intros st. unfold write_json. destruct (dump_json path res (world st)) as [r w]. simpl.
  exists []. rewrite app_nil_r. split; [done | apply orderly_nil].
Qed.

(** [_chat] in one equation: one call, whose reply decides the outcome. *)
Lemma _chat_eq (self : SEOContentSystem) (m sys usr : str) (mt : Z) (st : State) :
  _chat self m sys usr mt st =
    let req := chat_request self m sys usr mt in
    let st' := {| world := (create req (world st)).2;
                  calls := calls st ++ [(req, (create req (world st)).1)] |} in
    match (create req (world st)).1 with
    | Raise e => (Raise e, st')
    | Return resp =>
        match choices resp with
        | [] => (Raise IndexError, st')
        | c :: _ => (Return (choice_text c), st')
        end
    end.
Proof.
  unfold _chat, bind, completions_create. simpl.
  destruct (create _ (world st)) as [[resp|e] w]; simpl; [|done].
  by destruct (choices resp).
Qed.

Lemma _chat_Return (self : SEOContentSystem) (m sys usr : str) (mt : Z) st t st' :
  _chat self m sys usr mt st = (Return t, st') ->
  exists c, answers (chat_request self m sys usr mt) c st st' /\ t = choice_text c.
Proof.
  rewrite _chat_eq. simpl.
  destruct (create _ (world st)) as [[resp|e] w] eqn:Hc; simpl; [|done].
  destruct (choices resp) as [|c cs] eqn:Hch; [done |].
  intros [= <- <-]. exists c. split; [|done]. exists resp, cs. simpl. by rewrite Hc.
Qed.

Lemma _chat_answers (self : SEOContentSystem) (m sys usr : str) (mt : Z) c st st' :
  answers (chat_request self m sys usr mt) c st st' ->
  _chat self m sys usr mt st = (Return (choice_text c), st').
Proof.
  intros [resp [cs [Hc [Hch Hcalls]]]]. rewrite _chat_eq. simpl.
  rewrite Hc. simpl. rewrite Hch. f_equal.
  destruct st' as [w' l']. simpl in *. by rewrite Hcalls.
Qed.

Lemma tracks__chat (self : SEOContentSystem) (m sys usr : str) (mt : Z) :
  tracks (_chat self m sys usr mt).
Proof.
  unfold _chat. apply tracks_bind; [apply tracks_create |].
  intros resp. destruct (choices resp); [apply tracks_raise | apply tracks_ret].
Qed.

End EffectFacts.

(** ** The generators and the orchestrator *)

Section PipelineFacts.
Context {U : Unicode} {E : Env}.

Ltac open_prompt p :=
  let sys := fresh "sys" in
  let usr := fresh "usr" in
  destruct p as [sys usr].

Lemma generate_synthetic_keywords_Return self topic lang n st K st' :
  generate_synthetic_keywords self topic lang n st = (Return K, st') ->
  exists c, answers (keywords_request self topic lang n) c st st'
            /\ K = parse_keywords (choice_text c) n.
Proof.
  unfold generate_synthetic_keywords, keywords_request.
  open_prompt (keywords_prompt topic lang n). intros H.
  apply bind_Return in H as (t & st1 & Ht & H).
  apply ret_Return in H as [<- <-].
  apply _chat_Return in Ht as (c & Hc & ->). by exists c.
Qed.

Lemma generate_synthetic_keywords_answers self topic lang n c st st' :
  answers (keywords_request self topic lang n) c st st' ->
  generate_synthetic_keywords self topic lang n st
  = (Return (parse_keywords (choice_text c) n), st').
Proof.
  unfold generate_synthetic_keywords, keywords_request.
  open_prompt (keywords_prompt topic lang n). intros H.
  unfold bind. by rewrite (_chat_answers _ _ _ _ _ _ _ _ H).
Qed.

Lemma generate_meta_description_Return self topic lang kws st t st' :
  generate_meta_description self topic lang kws st = (Return t, st') ->
  exists c, answers (meta_description_request self topic lang kws) c st st'
            /\ t = Py.strip (Py.slice_to (choice_text c) 150).
Proof.
  unfold generate_meta_description, meta_description_request.
  open_prompt (meta_description_prompt topic lang kws). intros H.
  apply bind_Return in H as (t0 & st1 & Ht & H).
  apply ret_Return in H as [<- <-].
  apply _chat_Return in Ht as (c & Hc & ->). by exists c.
Qed.

Lemma generate_title_Return self topic lang kws st t st' :
  generate_title self topic lang kws st = (Return t, st') ->
  exists c, answers (title_request self topic lang kws) c st st'
            /\ t = Py.strip (Py.slice_to (choice_text c) 60).
Proof.
  unfold generate_title, title_request.
  open_prompt (title_prompt topic lang kws). intros H.
  apply bind_Return in H as (t0 & st1 & Ht & H).
  apply ret_Return in H as [<- <-].
  apply _chat_Return in Ht as (c & Hc & ->). by exists c.
Qed.

Lemma generate_title_answers self topic lang kws c st st' :
  answers (title_request self topic lang kws) c st st' ->
  generate_title self topic lang kws st
  = (Return (Py.strip (Py.slice_to (choice_text c) 60)), st').
Proof.
  unfold generate_title, title_request.
  open_prompt (title_prompt topic lang kws). intros H.
  unfold bind. by rewrite (_chat_answers _ _ _ _ _ _ _ _ H).
Qed.

Lemma generate_summary_Return self topic lang kws st t st' :
  generate_summary self topic lang kws st = (Return t, st') ->
  exists c, answers (summary_request self topic lang kws) c st st'
            /\ t = Py.strip (Py.slice_to (choice_text c) 300).
Proof.
  unfold generate_summary, summary_request.
  open_prompt (summary_prompt topic lang kws). intros H.
  apply bind_Return in H as (t0 & st1 & Ht & H).
  apply ret_Return in H as [<- <-].
  apply _chat_Return in Ht as (c & Hc & ->). by exists c.
Qed.

Lemma tracks_generate_synthetic_keywords self topic lang n :
  tracks (generate_synthetic_keywords self topic lang n).
Proof.
  unfold generate_synthetic_keywords. open_prompt (keywords_prompt topic lang n).
  apply tracks_bind; [apply tracks__chat | intros; apply tracks_ret].
Qed.

Lemma tracks_generate_meta_description self topic lang kws :
  tracks (generate_meta_description self topic lang kws).
Proof.
  unfold generate_meta_description. open_prompt (meta_description_prompt topic lang kws).
  apply tracks_bind; [apply tracks__chat | intros; apply tracks_ret].
Qed.

Lemma tracks_generate_title self topic lang kws :
  tracks (generate_title self topic lang kws).
Proof.
  unfold generate_title. open_prompt (title_prompt topic lang kws).
  apply tracks_bind; [apply tracks__chat | intros; apply tracks_ret].
Qed.

Lemma tracks_generate_summary self topic lang kws :
  tracks (generate_summary self topic lang kws).
Proof.
  unfold generate_summary. open_prompt (summary_prompt topic lang kws).
  apply tracks_bind; [apply tracks__chat | intros; apply tracks_ret].
Qed.

Lemma tracks_run self tp lang_arg kw_arg synth out :
  tracks (run self tp lang_arg kw_arg synth out).
Proof.
  unfold run. apply tracks_bind.
  { destruct (_ && _); [apply tracks_generate_synthetic_keywords | apply tracks_ret]. }
  intros K. apply tracks_bind; [apply tracks_generate_meta_description |].
  intros m. apply tracks_bind; [apply tracks_generate_title |].
  intros t. apply tracks_bind; [apply tracks_generate_summary |].
  intros s. apply tracks_bind; [apply tracks_strftime |].
  intros ts. apply tracks_bind; [| intros; apply tracks_ret].
  destruct out as [[|? ?]|]; [apply tracks_ret | apply tracks_write | apply tracks_ret].
Qed.

(** A run that returns has gone through every stage; this is what each
    stage left in the result. *)
Lemma run_Return self tp lang_arg kw_arg synth out st res st' :
  run self tp lang_arg kw_arg synth out st = (Return res, st') ->
  let lang := or_default lang_arg (detect_language tp) in
  let K := keywords res in
  exists st1 st2 st3 st4 cm ct cs,
    resolve_keywords self tp lang kw_arg synth st = (Return K, st1) /\
    answers (meta_description_request self tp lang (Some K)) cm st1 st2 /\
    answers (title_request self tp lang (Some K)) ct st2 st3 /\
    answers (summary_request self tp lang (Some K)) cs st3 st4 /\
    calls st' = calls st4 /\
    topic res = tp /\
    language res = lang /\
    meta_description res = Py.strip (Py.slice_to (choice_text cm) 150) /\
    title res = Py.strip (Py.slice_to (choice_text ct) 60) /\
    summary res = Py.strip (Py.slice_to (choice_text cs) 300) /\
    checks res =
      <["summary" := _check_field (summary res) 300 (Some K)]>
        (<["title" := _check_field (title res) 60 (Some K)]>
           (<["meta_description" := _check_field (meta_description res) 150 (Some K)]> ∅)) /\
    model_used res = model self /\
    timestamp res = (strftime u"%Y-%m-%d %H:%M:%S" (world st4)).1.
Proof.
  unfold run. intros H.
  apply bind_Return in H as (K & st1 & HK & H).
  apply bind_Return in H as (m & st2 & Hm & H).
  apply bind_Return in H as (t & st3 & Ht & H).
  apply bind_Return in H as (s & st4 & Hs & H).
  apply bind_Return in H as (ts & st5 & Hts & H).
  apply bind_Return in H as (x & st6 & Hw & H).
  apply ret_Return in H as [<- <-]. simpl.
  apply generate_meta_description_Return in Hm as (cm & Hcm & ->).
  apply generate_title_Return in Ht as (ct & Hct & ->).
  apply generate_summary_Return in Hs as (cs & Hcs & ->).
  exists st1, st2, st3, st4, cm, ct, cs.
  unfold time_strftime in Hts.
  destruct (strftime _ (world st4)) as [ts' w5] eqn:Hclock.
  injection Hts as <- <-. simpl in *.
  assert (calls st6 = calls st4) as Hcalls.
  { destruct out as [[|? ?]|].
    - by apply ret_Return in Hw as [_ <-].
    - unfold write_json in Hw. simpl in Hw.
      destruct (dump_json _ _ _) as [r w6]. by injection Hw as -> <-.
    - by apply ret_Return in Hw as [_ <-]. }
  repeat split; done.
Qed.

End PipelineFacts.

Section RunFacts.
Context {U : Unicode} {E : Env}.

Lemma bind_step {A B} (m : M A) (k : A -> M B) st a st1 :
  m st = (Return a, st1) -> bind m k st = k a st1.
Proof. unfold bind. by intros ->. Qed.

Lemma checks_lookup (m t s : FieldCheck) :
  let ch : gmap string FieldCheck :=
    <["summary" := s]> (<["title" := t]> (<["meta_description" := m]> ∅)) in
  ch !! "meta_description" = Some m /\ ch !! "title" = Some t /\ ch !! "summary" = Some s.
Proof. simpl. repeat split; by simplify_map_eq. Qed.

(** How [run] resolves the keyword list, and what it sends for it. *)
Lemma resolve_keywords_Return self tp lang kw_arg synth st K st1 :
  resolve_keywords self tp lang kw_arg synth st = (Return K, st1) ->
  exists pre,
    calls st1 = calls st ++ pre /\
    match kw_arg with
    | Some (k :: ks) => K = k :: ks /\ pre = []
    | _ =>
        if synth
        then generate_synthetic_keywords self tp lang 8 st = (Return K, st1)
        else K = [] /\ pre = []
    end.
Proof.
  unfold resolve_keywords.
  destruct kw_arg as [[|k ks]|]; simpl.
  - destruct synth.
    + intros H. destruct (generate_synthetic_keywords_Return _ _ _ _ _ _ _ H)
        as (c & (resp & cs & _ & _ & Hc) & _).
      by exists [(keywords_request self tp lang 8, Return resp)].
    + intros H. apply ret_Return in H as [<- <-]. exists []. by rewrite app_nil_r.
  - intros H. apply ret_Return in H as [<- <-]. exists []. by rewrite app_nil_r.
  - destruct synth.
    + intros H. destruct (generate_synthetic_keywords_Return _ _ _ _ _ _ _ H)
        as (c & (resp & cs & _ & _ & Hc) & _).
      by exists [(keywords_request self tp lang 8, Return resp)].
    + intros H. apply ret_Return in H as [<- <-]. exists []. by rewrite app_nil_r.
Qed.

End RunFacts.

(** ** The keyword synthesizer *)

Section KeywordFacts.
Context {U : Unicode}.

Lemma slice_to_take {A} (l : list A) (n : Z) : exists m, Py.slice_to l n = take m l.
Proof. unfold Py.slice_to. destruct (0 <=? n)%Z; eauto. Qed.

(** The loop keeps [seen] equal to the lowercase forms of the lines
    read so far, and appends the lines that are first of their form. *)
Lemma dedup_loop_first_seen (rest pre : list str) (seen : gset str) (result : list str) :
  (forall y, y ∈ seen <-> y ∈ lower <$> pre) ->
  dedup_loop rest seen result
  = result ++ (filter (fun jx : nat * str =>
                         lower jx.2 ∉ lower <$> take jx.1 (pre ++ rest))
                      (imap (fun i x => (length pre + i, x)%nat) rest)).*2.
Proof.
  revert pre seen result. induction rest as [|x r IH]; intros pre seen result Hseen.
  - simpl. by rewrite app_nil_r.
  - assert (imap (fun i y => (length pre + i, y)%nat) (x :: r)
            = (length pre, x) :: imap (fun i y => (length (pre ++ [x]) + i, y)%nat) r)
      as ->.
    { rewrite imap_cons. f_equal; [f_equal; lia |].
      apply imap_ext. intros i y _. simpl. rewrite length_app. simpl. f_equal. lia. }
    assert (take (length pre) (pre ++ x :: r) = pre) as Htake by apply take_app_length.
    rewrite filter_cons. simpl dedup_loop. simpl fst. simpl snd. rewrite Htake.
    rewrite (cons_middle x pre r), app_assoc.
    destruct (decide (lower x ∈ seen)) as [Hin|Hnin].
    + rewrite decide_False by (intros Hn; apply Hn, Hseen, Hin).
      apply IH. intros y. rewrite fmap_app, elem_of_app, <- Hseen. simpl.
      rewrite list_elem_of_singleton. split; [by left | by intros [?| ->]].
    + rewrite decide_True by (intros Hn; apply Hnin, Hseen, Hn).
      rewrite (IH (pre ++ [x]) ({[lower x]} ∪ seen) (result ++ [x])).
      * by rewrite <- app_assoc.
      * intros y. rewrite fmap_app, elem_of_app, elem_of_union, <- Hseen. simpl.
        rewrite list_elem_of_singleton, elem_of_singleton. tauto.
Qed.

Lemma dedup_loop_NoDup (rest : list str) (seen : gset str) (result : list str) :
  (forall y, y ∈ seen <-> y ∈ lower <$> result) ->
  NoDup (lower <$> result) ->
  NoDup (lower <$> dedup_loop rest seen result).
Proof.
  revert seen result. induction rest as [|x r IH]; intros seen result Hseen Hnd; [done |].
  simpl. destruct (decide (lower x ∈ seen)) as [Hin|Hnin]; [by apply IH |].
  apply IH.
  - intros y. rewrite fmap_app, elem_of_app, elem_of_union, <- Hseen. simpl.
    rewrite list_elem_of_singleton, elem_of_singleton. tauto.
  - rewrite fmap_app. simpl. apply NoDup_app. split; [done |]. split.
    + intros y Hy. rewrite list_elem_of_singleton. intros ->. by apply Hnin, Hseen.
    + apply NoDup_singleton.
Qed.

Lemma dedup_is_first_seen (lines : list str) :
  dedup_loop lines ∅ [] = first_seen lines.
Proof.
  rewrite (dedup_loop_first_seen lines [] ∅ []).
  - reflexivity.
  - intros y. simpl. rewrite elem_of_nil. set_solver.
Qed.

(** On ASCII text the result does not depend on the rest of the
    Unicode tables. *)
Lemma isascii_app (a b : str) :
  Py.isascii (a ++ b) = true <-> Py.isascii a = true /\ Py.isascii b = true.
Proof. unfold Py.isascii. rewrite forallb_app. apply andb_true_iff. Qed.

Lemma isascii_reverse (a : str) : Py.isascii a = true -> Py.isascii (reverse a) = true.
Proof.
  unfold Py.isascii. rewrite !forallb_forall. intros H c Hc. apply H.
  apply list_elem_of_In. apply list_elem_of_In in Hc. by rewrite elem_of_reverse in Hc.
Qed.

Lemma isascii_lstrip (s : str) : Py.isascii s = true -> Py.isascii (Py.lstrip s) = true.
Proof.
  destruct (lstrip_split s) as [pre [Hs _]]. intros H. rewrite Hs in H.
  by apply isascii_app in H as [_ H].
Qed.

Lemma isascii_strip (s : str) : Py.isascii s = true -> Py.isascii (Py.strip s) = true.
Proof.
  intros H. unfold Py.strip, Py.rstrip.
  by apply isascii_reverse, isascii_lstrip, isascii_reverse, isascii_lstrip.
Qed.

Lemma isascii_strip_markers (s : str) :
  Py.isascii s = true -> Py.isascii (strip_markers s) = true.
Proof.
  induction s as [|c r IH]; [done |]. intros H. simpl.
  destruct (is_marker c); [| done]. apply IH. simpl in H. by apply andb_true_iff in H as [_ H].
Qed.

Lemma isascii_splitlines_from (n : nat) (cur s : str) :
  (length s <= n)%nat ->
  Py.isascii cur = true -> Py.isascii s = true ->
  Forall (fun line => Py.isascii line = true) (Py.splitlines_from cur s).
Proof.
  revert cur s. induction n as [|n IH]; intros cur s Hn Hcur Hs.
  - destruct s; [|simpl in Hn; lia]. simpl.
    destruct cur; [constructor |]. constructor; [by apply isascii_reverse | constructor].
  - destruct s as [|c r]; simpl.
    + destruct cur; [constructor |]. constructor; [by apply isascii_reverse | constructor].
    + simpl in Hn. simpl in Hs. apply andb_true_iff in Hs as [Hc Hr].
      destruct (c =? 13).
      * destruct r as [|d r'].
        { constructor; [by apply isascii_reverse |]. apply IH; [simpl; lia | done | done]. }
        simpl in Hr. apply andb_true_iff in Hr as [Hd Hr'].
        assert (Forall (fun line => Py.isascii line = true)
                  (reverse cur :: Py.splitlines_from [] r')) as G1.
        { constructor; [by apply isascii_reverse |].
          apply IH; [simpl in Hn; lia | done | done]. }
        assert (Forall (fun line => Py.isascii line = true)
                  (reverse cur :: Py.splitlines_from [] (d :: r'))) as G2.
        { constructor; [by apply isascii_reverse |].
          apply IH; [simpl in *; lia | done |]. simpl. by rewrite Hd, Hr'. }
        destruct d as [|p]; [exact G2 |].
        repeat first [exact G1 | exact G2 | destruct p as [p|p|]].
      * destruct (Py.islinebreak c).
        { constructor; [by apply isascii_reverse |]. apply IH; [lia | done | done]. }
        apply IH; [lia | | done]. simpl. by rewrite Hc, Hcur.
Qed.

Lemma strip_markers_ascii (s : str) :
  Py.isascii s = true -> strip_markers s = strip_markers (U := Mock.unicode) s.
Proof.
  induction s as [|c r IH]; [done |]. intros H. simpl in H.
  apply andb_true_iff in H as [Hc Hr]. simpl. unfold is_marker.
  rewrite (isdecimal_ascii c) by (by apply N.ltb_lt). simpl.
  rewrite (IH Hr). reflexivity.
Qed.

Lemma keyword_lines_ascii (text : str) :
  Py.isascii text = true ->
  keyword_lines text = keyword_lines (U := Mock.unicode) text /\
  Forall (fun kw => Py.isascii kw = true) (keyword_lines text).
Proof.
  intros H. unfold keyword_lines.
  pose proof (isascii_splitlines_from (length text) [] text (le_n _) eq_refl H) as Hl.
  fold (Py.splitlines text) in Hl.
  induction Hl as [|line ls Hline Hls IH]; [done |].
  rewrite !filter_cons. destruct (decide _); [| exact IH].
  destruct IH as [IH1 IH2]. simpl. split.
  - rewrite IH1. by rewrite (strip_markers_ascii line Hline).
  - constructor; [| exact IH2]. by apply isascii_strip, isascii_strip_markers.
Qed.

Lemma dedup_loop_ascii (kws : list str) (seen : gset str) (result : list str) :
  Forall (fun kw => Py.isascii kw = true) kws ->
  dedup_loop kws seen result = dedup_loop (U := Mock.unicode) kws seen result.
Proof.
  intros H. revert seen result. induction H as [|kw r Hkw Hr IH]; intros seen result; [done |].
  simpl. rewrite (lower_ascii kw Hkw). destruct (decide _); apply IH.
Qed.

Lemma parse_keywords_ascii (text : str) (n : Z) :
  Py.isascii text = true ->
  parse_keywords text n = parse_keywords (U := Mock.unicode) text n.
Proof.
  intros H. unfold parse_keywords.
  destruct (keyword_lines_ascii text H) as [H1 H2].
  rewrite (dedup_loop_ascii _ _ _ H2). by rewrite H1.
Qed.

Lemma count_true_ext (f g : char -> bool) (text : str) :
  (forall c, c ∈ text -> f c = g c) -> count_true f text = count_true g text.
Proof.
  induction text as [|c r IH]; [done |]. intros H. simpl.
  rewrite (H c) by apply list_elem_of_here. rewrite IH; [done |].
  intros d Hd. apply H. by apply list_elem_of_further.
Qed.

Lemma detect_language_ascii (text : str) :
  Py.isascii text = true ->
  detect_language text = detect_language (U := Mock.unicode) text.
Proof.
  intros H. unfold detect_language.
  assert (forall c, c ∈ text -> lower [c] = Py.lower (Unicode := Mock.unicode) [c]) as Hl.
  { intros c Hc. apply lower_ascii. simpl. rewrite andb_true_r.
    unfold Py.isascii in H. rewrite forallb_forall in H. apply H.
    by apply list_elem_of_In. }
  rewrite (count_true_ext (fun ch =>
             (Py.le u"а" (lower [ch]) && Py.le (lower [ch]) u"я")
             || bool_decide (ch = 1105)) (fun ch =>
             (Py.le u"а" (Py.lower (Unicode := Mock.unicode) [ch])
              && Py.le (Py.lower (Unicode := Mock.unicode) [ch]) u"я")
             || bool_decide (ch = 1105)) text)
    by (intros c Hc; cbv beta; rewrite (Hl c Hc); reflexivity).
  rewrite (count_true_ext (fun ch => Py.le u"a" (lower [ch]) && Py.le (lower [ch]) u"z")
             (fun ch => Py.le u"a" (Py.lower (Unicode := Mock.unicode) [ch])
                        && Py.le (Py.lower (Unicode := Mock.unicode) [ch]) u"z") text)
    by (intros c Hc; cbv beta; rewrite (Hl c Hc); reflexivity).
  reflexivity.
Qed.


End KeywordFacts.

(** ** Truncation *)

Lemma choice_text_content (c : Choice) (s : str) :
  content (message c) = Some s -> s <> [] -> choice_text c = Py.strip s.
Proof.
  unfold choice_text, or_else. intros -> Hs. destruct s as [|ch s]; [done |]. reflexivity.
Qed.

Lemma head_take {A} (l : list A) (n : nat) : head (take (S n) l) = head l.
Proof. by destruct l. Qed.

(** The text cut at [n] characters and trimmed keeps all [n] characters
    exactly when the character at position [n] (counting from one) is
    there and is not whitespace. *)
Lemma cut_keeps_all (s : str) (n : nat) :
  length (Py.strip (take (S n) (Py.strip s))) = S n
  <-> exists ch, Py.strip s !! n = Some ch /\ Py.isspace ch = false.
Proof.
  set (T := Py.strip s). split.
  - intros Hlen.
    pose proof (strip_length (take (S n) T)) as H1.
    pose proof (length_take_le T (S n)) as H2.
    assert (length (take (S n) T) = S n) as H3.
    { rewrite length_take in *. lia. }
    assert (Py.strip (take (S n) T) = take (S n) T) as Hid.
    { apply strip_same_length. lia. }
    assert (n < length T)%nat as Hn by (rewrite length_take in H3; lia).
    destruct (lookup_lt_is_Some_2 T n Hn) as [ch Hch].
    exists ch. split; [done |].
    apply (strip_last (take (S n) T)). rewrite Hid, last_lookup, H3.
    change (pred (S n)) with n. rewrite lookup_take_lt by lia. done.
  - intros (ch & Hch & Hws).
    assert (n < length T)%nat as Hn by (by apply lookup_lt_Some in Hch).
    assert (length (take (S n) T) = S n) as H3 by (rewrite length_take; lia).
    rewrite strip_id; [done | |].
    + intros c. rewrite head_take. apply strip_head.
    + intros c. rewrite last_lookup, H3. change (pred (S n)) with n.
      rewrite lookup_take_lt by lia. intros Hc.
      by pose proof (eq_trans (eq_sym Hch) Hc) as [= <-].
Qed.

(** ** The report *)

Lemma mark_differs : mark true <> mark false.
Proof. vm_compute. discriminate. Qed.

Lemma field_ok_spec (fc : FieldCheck) :
  field_ok fc = true <-> ok_length fc = true /\ missing_keywords_ fc = [].
Proof.
  unfold field_ok. rewrite andb_true_iff.
  destruct (missing_keywords_ fc); simpl; intuition congruence.
Qed.

(** The detail line of a field shows its length flag: two checks with
    the same line have the same flag. *)
Lemma field_detail_shows_flag (a b : FieldCheck) :
  field_detail a = field_detail b -> ok_length a = ok_length b.
Proof.
  unfold field_detail. intros H. apply app_inv_head in H.
  destruct (ok_length a), (ok_length b); try done; vm_compute in H; discriminate H.
Qed.

(** How a line of the report shows the check of a field: the mark of
    the length flag, then the missing keywords joined by commas, or a
    dash when there is none; each missing keyword stands in the line. *)
Lemma Occurs_here (p b : str) : Occurs p (p ++ b).
Proof. by exists [], b. Qed.

Lemma Occurs_after (p a s : str) : Occurs p s -> Occurs p (a ++ s).
Proof. intros (x & y & ->). exists (a ++ x), y. by rewrite <- app_assoc. Qed.

Lemma Occurs_before (p s b : str) : Occurs p s -> Occurs p (s ++ b).
Proof. intros (x & y & ->). exists x, (y ++ b). by rewrite <- !app_assoc. Qed.

Lemma Occurs_join (sep kw : str) (K : list str) : kw ∈ K -> Occurs kw (Py.join sep K).
Proof.
  induction K as [|k K' IH]; [by intros ?%elem_of_nil |].
  intros [-> | Hin]%elem_of_cons.
  - destruct K' as [|k' K'']; simpl.
    + exists [], []. by rewrite app_nil_r.
    + apply Occurs_here.
  - destruct K' as [|k' K'']; [by apply elem_of_nil in Hin |].
    change (Py.join sep (k :: k' :: K'')) with (k ++ sep ++ Py.join sep (k' :: K'')).
    by apply Occurs_after, Occurs_after, IH.
Qed.

Lemma field_detail_itemizes (fc : FieldCheck) :
  field_detail fc
  = u"  Длина ОК: " ++ (if ok_length fc then u"✓" else u"✗")
      ++ u"; Отсутствуют ключевые: "
      ++ match missing_keywords_ fc with
         | [] => u"—"
         | kws => Py.join u", " kws
         end /\
  forall kw, kw ∈ missing_keywords_ fc -> Occurs kw (field_detail fc).
Proof.
  unfold field_detail, mark, list_or_dash. split.
  - by destruct (ok_length fc), (missing_keywords_ fc).
  - intros kw Hkw. apply Occurs_after, Occurs_after, Occurs_after.
    destruct (missing_keywords_ fc) as [|k K'] eqn:HK; [by apply elem_of_nil in Hkw |].
    by apply Occurs_join.
Qed.

(** * The claims *)

(** C1. Every result [run] returns has a title of at most 60 characters,
    a meta description of at most 150 and a summary of at most 300,
    whatever the completion service answered; the check recorded for
    each field carries the same limit and has its length flag set. *)
Theorem run_fields_within_limits {U : Unicode} {E : Env}
    self tp lang_arg kw_arg synth out st res st' :
  run self tp lang_arg kw_arg synth out st = (Return res, st') ->
  (length (title res) <= 60)%nat /\
  (length (meta_description res) <= 150)%nat /\
  (length (summary res) <= 300)%nat /\
  exists ft fm fs,
    checks res !! "title" = Some ft /\
    checks res !! "meta_description" = Some fm /\
    checks res !! "summary" = Some fs /\
    (max_allowed ft = 60 /\ max_allowed fm = 150 /\ max_allowed fs = 300)%Z /\
    length_ ft = Z.of_nat (length (title res)) /\
    length_ fm = Z.of_nat (length (meta_description res)) /\
    length_ fs = Z.of_nat (length (summary res)) /\
    ok_length ft = true /\ ok_length fm = true /\ ok_length fs = true.
Proof.
  intros H. apply run_Return in H
    as (st1 & st2 & st3 & st4 & cm & ct & cs & _ & _ & _ & _ & _ & _ & _
        & Hm & Ht & Hs & Hch & _).
  pose proof (truncated_length (choice_text ct) 60 ltac:(lia)) as Lt.
  pose proof (truncated_length (choice_text cm) 150 ltac:(lia)) as Lm.
  pose proof (truncated_length (choice_text cs) 300 ltac:(lia)) as Ls.
  rewrite <- Ht in Lt. rewrite <- Hm in Lm. rewrite <- Hs in Ls.
  repeat (split; [lia |]).
  destruct (checks_lookup
              (_check_field (meta_description res) 150 (Some (keywords res)))
              (_check_field (title res) 60 (Some (keywords res)))
              (_check_field (summary res) 300 (Some (keywords res))))
    as (Gm & Gt & Gs).
  rewrite <- Hch in Gm, Gt, Gs.
  eexists _, _, _. repeat (split; [eassumption || reflexivity |]).
  simpl. rewrite !Z.leb_le. lia.
Qed.

Lemma run_fields_within_limits_witness :
  exists res st',
    run (U := Mock.unicode) (E := Mock.env) default_system u"electric bicycles"
        None None true (Some u"seo_output.json")
        (Mock.start [Mock.says u"electric bike"; Mock.says (repeat 109 200);
                     Mock.says (repeat 116 90); Mock.says (repeat 115 400)] true)
    = (Return res, st') /\
    (length (title res) <= 60)%nat /\
    (length (meta_description res) <= 150)%nat /\
    (length (summary res) <= 300)%nat.
Proof.
  destruct (run (U := Mock.unicode) (E := Mock.env) default_system u"electric bicycles"
        None None true (Some u"seo_output.json")
        (Mock.start [Mock.says u"electric bike"; Mock.says (repeat 109 200);
                     Mock.says (repeat 116 90); Mock.says (repeat 115 400)] true))
    as [[res|e] st'] eqn:H.
  - exists res, st'. split; [reflexivity |].
    destruct (run_fields_within_limits _ _ _ _ _ _ _ _ _ H) as (H1 & H2 & H3 & _).
    auto.
  - vm_compute in H. discriminate H.
Defined.

(** C2. The keyword list of a run is the caller's list when that list is
    not empty, otherwise the synthesizer's output when synthesis is
    enabled, otherwise the empty list; this one list is what the three
    field prompts are built from (the requests the service received),
    what the three checks are computed with, and what the result stores. *)
Theorem run_single_keyword_list {U : Unicode} {E : Env}
    self tp lang_arg kw_arg synth out st res st' :
  run self tp lang_arg kw_arg synth out st = (Return res, st') ->
  let lang := language res in
  let K := keywords res in
  (exists pre r1 r2 r3,
      calls st' = calls st ++ pre
                  ++ [ (meta_description_request self tp lang (Some K), r1);
                       (title_request self tp lang (Some K), r2);
                       (summary_request self tp lang (Some K), r3) ] /\
      match kw_arg with
      | Some (k :: ks) => K = k :: ks /\ pre = []
      | _ =>
          if synth
          then exists st1,
                 generate_synthetic_keywords self tp lang 8 st = (Return K, st1) /\
                 calls st1 = calls st ++ pre
          else K = [] /\ pre = []
      end) /\
  checks res !! "meta_description"
    = Some (_check_field (meta_description res) 150 (Some K)) /\
  checks res !! "title" = Some (_check_field (title res) 60 (Some K)) /\
  checks res !! "summary" = Some (_check_field (summary res) 300 (Some K)).
Proof.
  intros H. apply run_Return in H
    as (st1 & st2 & st3 & st4 & cm & ct & cs & HK & Am & At & As & Hcalls & _
        & Hlang & _ & _ & _ & Hch & _).
  simpl. rewrite Hlang. split.
  - apply resolve_keywords_Return in HK as (pre & Hpre & Hres).
    destruct Am as (rm & ? & _ & _ & Cm).
    destruct At as (rt & ? & _ & _ & Ct).
    destruct As as (rs & ? & _ & _ & Cs).
    exists pre, (Return rm), (Return rt), (Return rs). split.
    + rewrite Hcalls, Cs, Ct, Cm, Hpre. by rewrite <- !app_assoc.
    + destruct kw_arg as [[|k ks]|]; [| done |]; destruct synth; eauto.
  - rewrite Hch. apply checks_lookup.
Qed.

Lemma run_single_keyword_list_witness :
  exists res st',
    run (U := Mock.unicode) (E := Mock.env) default_system u"electric bicycles"
        (Some u"en") (Some [u"bicycle"; u"e-bike"]) true None
        (Mock.start [Mock.says u"Buy the best bikes online"; Mock.says u"E-bike deals";
                     Mock.says u"All about the bicycle."] true)
    = (Return res, st') /\
    keywords res = [u"bicycle"; u"e-bike"] /\
    checks res !! "title"
      = Some (_check_field (U := Mock.unicode) (title res) 60 (Some (keywords res))).
Proof.
  destruct (run (U := Mock.unicode) (E := Mock.env) default_system u"electric bicycles"
        (Some u"en") (Some [u"bicycle"; u"e-bike"]) true None
        (Mock.start [Mock.says u"Buy the best bikes online"; Mock.says u"E-bike deals";
                     Mock.says u"All about the bicycle."] true))
    as [[res|e] st'] eqn:H.
  - exists res, st'. split; [reflexivity |].
    destruct (run_single_keyword_list _ _ _ _ _ _ _ _ _ H)
      as ((pre & r1 & r2 & r3 & _ & HK & _) & _ & Ht & _).
    split; [exact HK | exact Ht].
  - vm_compute in H. discriminate H.
Defined.

(** C3. Whatever the service answers to the keyword request, and
    whatever count [n] is asked for, the synthesizer returns keywords
    of which no two have the same lowercase form, which are an initial
    part of the first-seen lines of the answer (in their order, in their
    spelling), and, [n] being a count, the first [n] of them at most.
    For the answer with the lines "1. electric bike", "- cycling",
    "electric bike" to the request for the topic "electric bicycles",
    the keywords are "electric bike" and "cycling". *)
Theorem synthesized_keywords_first_seen {U : Unicode} {E : Env}
    self tp lang (n : Z) c st st' :
  answers (keywords_request self tp lang n) c st st' ->
  (exists out,
      generate_synthetic_keywords self tp lang n st = (Return out, st') /\
      NoDup (lower <$> out) /\
      out `prefix_of` first_seen (keyword_lines (choice_text c)) /\
      ((0 <= n)%Z ->
       out = take (Z.to_nat n) (first_seen (keyword_lines (choice_text c))) /\
       (Z.of_nat (length out) <= n)%Z)) /\
  (tp = u"electric bicycles" -> lang = detect_language tp -> n = 8%Z ->
   content (message c)
     = Some (Py.join [10] [u"1. electric bike"; u"- cycling"; u"electric bike"]) ->
   lang = u"en" /\
   generate_synthetic_keywords self tp lang n st
     = (Return [u"electric bike"; u"cycling"], st')).
Proof.
  intros Ha. rewrite (generate_synthetic_keywords_answers _ _ _ _ _ _ _ Ha). split.
  - exists (parse_keywords (choice_text c) n). split; [done |].
    unfold parse_keywords.
    pose proof (dedup_loop_NoDup (keyword_lines (choice_text c)) ∅ []) as Hnd.
    rewrite (dedup_is_first_seen (keyword_lines (choice_text c))) in *.
    split; [| split].
    + destruct (slice_to_take (first_seen (keyword_lines (choice_text c))) n) as [m ->].
      rewrite fmap_take. eapply sublist_NoDup; [| apply sublist_take].
      apply Hnd; [| constructor]. intros y. simpl. rewrite elem_of_nil. set_solver.
    + apply slice_to_prefix.
    + intros Hn. split; [by apply slice_to_nonneg | by apply slice_to_length].
  - intros -> -> -> Hc.
    rewrite (detect_language_ascii u"electric bicycles" eq_refl).
    split; [vm_compute; reflexivity |].
    rewrite (choice_text_content c _ Hc) by (vm_compute; discriminate).
    rewrite parse_keywords_ascii by (vm_compute; reflexivity).
    f_equal.
Qed.

Lemma synthesized_keywords_first_seen_witness :
  let st := Mock.start [Mock.says (Py.join [10] [u"1. electric bike"; u"- cycling";
                                                 u"electric bike"])] true in
  exists st',
    generate_synthetic_keywords (U := Mock.unicode) (E := Mock.env) default_system
      u"electric bicycles" u"en" 8 st
    = (Return [u"electric bike"; u"cycling"], st').
Proof.
  intros st.
  destruct (synthesized_keywords_first_seen (U := Mock.unicode) (E := Mock.env)
              default_system u"electric bicycles"
              (detect_language (U := Mock.unicode) u"electric bicycles") 8
              {| message := {| content := Some (Py.join [10] [u"1. electric bike";
                                                               u"- cycling";
                                                               u"electric bike"]);
                               reasoning_content := None |};
                 text := None |}
              st
              (generate_synthetic_keywords (U := Mock.unicode) (E := Mock.env)
                 default_system u"electric bicycles" u"en" 8 st).2) as (_ & Hscen).
  - eexists _, []. repeat split; vm_compute; reflexivity.
  - destruct Hscen as [Hlang Hgen]; [reflexivity .. |].
    eexists. rewrite Hlang in Hgen. exact Hgen.
Defined.

(** C4, on the code. A line made of list markers only is not blank, so
    the filter keeps it, and the removal of the markers leaves nothing
    of it: the synthesizer returns the empty string as a keyword. *)
Theorem synthesized_keywords_may_be_empty {U : Unicode} :
  keyword_lines (Py.join [10] [u"---"; u"1. electric bike"]) = [[]; u"electric bike"] /\
  parse_keywords (Py.join [10] [u"---"; u"1. electric bike"]) 8 = [[]; u"electric bike"] /\
  ~ Forall (fun kw : str => kw <> []) (parse_keywords (Py.join [10] [u"---"; u"1. electric bike"]) 8).
Proof.
  rewrite parse_keywords_ascii by (vm_compute; reflexivity).
  destruct (keyword_lines_ascii (Py.join [10] [u"---"; u"1. electric bike"])) as [-> _];
    [vm_compute; reflexivity |].
  split; [vm_compute; reflexivity |]. split; [vm_compute; reflexivity |].
  intros H. vm_compute in H. by inversion H.
Qed.



(** C6, as the code has it. The result is assembled in full before the
    artifact is written; when a path is given, what the write does
    decides the outcome: if it succeeds [run] returns that result, if it
    fails [run] raises the failure and returns no result. *)
Theorem run_write_outcome {U : Unicode} {E : Env}
    self tp lang_arg kw_arg synth (path : str) st res st1 :
  path <> [] ->
  run self tp lang_arg kw_arg synth None st = (Return res, st1) ->
  run self tp lang_arg kw_arg synth (Some path) st =
    match dump_json path res (world st1) with
    | (Return _, w) => (Return res, {| world := w; calls := calls st1 |})
    | (Raise e, w) => (Raise e, {| world := w; calls := calls st1 |})
    end.
Proof.
  destruct path as [|ch path]; [done |]. intros _ H. unfold run in *.
  apply bind_Return in H as (K & s1 & H1 & H). rewrite (bind_step _ _ _ _ _ H1).
  apply bind_Return in H as (m & s2 & H2 & H). rewrite (bind_step _ _ _ _ _ H2).
  apply bind_Return in H as (t & s3 & H3 & H). rewrite (bind_step _ _ _ _ _ H3).
  apply bind_Return in H as (s & s4 & H4 & H). rewrite (bind_step _ _ _ _ _ H4).
  apply bind_Return in H as (ts & s5 & H5 & H). rewrite (bind_step _ _ _ _ _ H5).
  unfold bind, ret in H. injection H as <- <-.
  unfold bind, write_json, ret.
  by destruct (dump_json _ _ (world s5)) as [[[]|e] w].
Qed.

Local Abbreviation refused_world :=
  (Mock.start [Mock.says u"Bikes for all"; Mock.says u"Bike shop";
               Mock.says u"About bikes."] false).

Lemma run_write_outcome_witness :
  (run (U := Mock.unicode) (E := Mock.env) default_system u"electric bicycles"
       (Some u"en") (Some [u"bike"]) true (Some u"seo_output.json") refused_world).1
  = Raise OSError.
Proof.
  destruct (run (U := Mock.unicode) (E := Mock.env) default_system u"electric bicycles"
              (Some u"en") (Some [u"bike"]) true None refused_world)
    as [[res|e] st1] eqn:H.
  - pose proof (run_write_outcome (U := Mock.unicode) (E := Mock.env) _ _ _ _ _
                  u"seo_output.json" _ res st1 ltac:(vm_compute; discriminate) H) as Hw.
    apply (f_equal fst) in Hw. etransitivity; [exact Hw |].
    assert (Mock.disk_ok (world st1) = false) as Hdisk.
    { vm_compute in H. by injection H as _ <-. }
    simpl. unfold Mock.mock_dump_json. by rewrite Hdisk.
  - vm_compute in H. discriminate H.
Defined.

(** C6, as the claim has it, fails: with a disk that refuses the write
    the result is assembled (a run without a path returns it), yet the
    run with a path ends in the exception and returns nothing. *)
Lemma run_write_failure_returns_nothing :
  (exists res st1,
      run (U := Mock.unicode) (E := Mock.env) default_system u"electric bicycles"
          (Some u"en") (Some [u"bike"]) true None refused_world = (Return res, st1) /\
      (dump_json (Env := Mock.env) u"seo_output.json" res (world st1)).1 = Raise OSError) /\
  (run (U := Mock.unicode) (E := Mock.env) default_system u"electric bicycles"
       (Some u"en") (Some [u"bike"]) true (Some u"seo_output.json") refused_world).1
  = Raise OSError /\
  ~ exists res,
      (run (U := Mock.unicode) (E := Mock.env) default_system u"electric bicycles"
           (Some u"en") (Some [u"bike"]) true (Some u"seo_output.json") refused_world).1
      = Return res.
Proof.
  split; [| split].
  - eexists _, _. split; vm_compute; reflexivity.
  - vm_compute. reflexivity.
  - intros [res H]. vm_compute in H. discriminate H.
Qed.

(** C7. When a call to the completion service raises (a connection
    failure in particular), [run] raises that same exception and returns
    no result, and the failed call is the last one the service received:
    nothing is sent again or afterwards. *)
Theorem run_aborts_on_service_failure {U : Unicode} {E : Env}
    self tp lang_arg kw_arg synth out st :
  exists new,
    calls (run self tp lang_arg kw_arg synth out st).2 = calls st ++ new /\
    forall i req e,
      new !! i = Some (req, Raise e) ->
      (run self tp lang_arg kw_arg synth out st).1 = Raise e /\
      S i = length new.
Proof. apply tracks_run. Qed.

Local Abbreviation interrupted_run :=
  (run (U := Mock.unicode) (E := Mock.env) default_system u"electric bicycles"
       None None true (Some u"seo_output.json")
       (Mock.start [Mock.says u"electric bike"; Mock.says u"Bikes for all";
                    Raise APIConnectionError; Mock.says u"never asked"] true)).

Lemma run_aborts_on_service_failure_witness :
  calls interrupted_run.2 !! 2%nat
    = Some (title_request default_system u"electric bicycles" u"en" (Some [u"electric bike"]),
            Raise APIConnectionError) /\
  interrupted_run.1 = Raise APIConnectionError /\
  length (calls interrupted_run.2) = 3%nat.
Proof.
  destruct (run_aborts_on_service_failure (U := Mock.unicode) (E := Mock.env)
              default_system u"electric bicycles" None None true (Some u"seo_output.json")
              (Mock.start [Mock.says u"electric bike"; Mock.says u"Bikes for all";
                           Raise APIConnectionError; Mock.says u"never asked"] true))
    as (new & Hnew & Hord).
  rewrite app_nil_l in Hnew.
  assert (new !! 2%nat
          = Some (title_request default_system u"electric bicycles" u"en"
                    (Some [u"electric bike"]), Raise APIConnectionError)) as Hcall
    by (rewrite <- Hnew; vm_compute; reflexivity).
  destruct (Hord _ _ _ Hcall) as [Hout Hlen].
  rewrite Hnew. split; [exact Hcall |]. split; [exact Hout | by rewrite <- Hlen].
Defined.

(** C8, as the code has it. When the service answers the title request
    with a 90-character string [s], the title is the trimmed answer cut
    to its first 60 characters and trimmed once more; it has at most 60
    characters and its length check passes; it has exactly 60 exactly
    when the 60th character of the trimmed answer exists and is not
    whitespace, and then it is the first 60 characters of the trimmed
    answer. *)
Theorem generate_title_of_long_answer {U : Unicode} {E : Env}
    self tp lang kws c s st st' :
  answers (title_request self tp lang kws) c st st' ->
  content (message c) = Some s ->
  length s = 90%nat ->
  let t := Py.strip (take 60 (Py.strip s)) in
  generate_title self tp lang kws st = (Return t, st') /\
  (length t <= 60)%nat /\
  ok_length (_check_field t 60 kws) = true /\
  (length t = 60%nat
   <-> exists ch, Py.strip s !! 59%nat = Some ch /\ Py.isspace ch = false) /\
  (length t = 60%nat -> t = take 60 (Py.strip s)).
Proof.
  intros Ha Hc Hlen t.
  assert (s <> []) as Hs by (intros ->; done).
  pose proof (truncated_length (Py.strip s) 60 ltac:(lia)) as Hfit.
  rewrite slice_to_nonneg in Hfit by lia. change (Z.to_nat 60) with 60%nat in Hfit.
  fold t in Hfit.
  split; [| split; [lia | split; [| split]]].
  - rewrite (generate_title_answers _ _ _ _ _ _ _ Ha).
    rewrite (choice_text_content c s Hc Hs). by rewrite slice_to_nonneg by lia.
  - simpl. apply Z.leb_le. lia.
  - apply (cut_keeps_all s 59).
  - intros H60. apply strip_same_length. fold t.
    pose proof (strip_length (take 60 (Py.strip s))) as H1. fold t in H1.
    rewrite length_take in *. lia.
Qed.

Lemma generate_title_of_long_answer_witness :
  let st := Mock.start [Mock.says (repeat 116 90)] true in
  exists st',
    generate_title (E := Mock.env) default_system u"electric bicycles" u"en" (Some []) st
    = (Return (repeat 116 60), st').
Proof.
  intros st.
  destruct (generate_title_of_long_answer (U := Mock.unicode) (E := Mock.env)
              default_system u"electric bicycles" u"en" (Some [])
              {| message := {| content := Some (repeat 116 90); reasoning_content := None |};
                 text := None |}
              (repeat 116 90) st
              (generate_title (E := Mock.env) default_system u"electric bicycles" u"en"
                 (Some []) st).2) as (Hgen & _).
  - eexists _, []. repeat split; vm_compute; reflexivity.
  - reflexivity.
  - reflexivity.
  - eexists. rewrite Hgen. vm_compute. reflexivity.
Defined.

(** C8, as the claim has it, fails: a 90-character answer with a space
    in 60th place gives a title of 59 characters, which is not the
    trimmed answer cut to 60. *)
Lemma generate_title_shorter_than_cut :
  let s := repeat 97 59 ++ [32] ++ repeat 98 30 in
  let r := generate_title (E := Mock.env) default_system u"electric bicycles" u"en"
             (Some []) (Mock.start [Mock.says s] true) in
  length s = 90%nat /\
  r.1 = Return (repeat 97 59) /\
  r.1 <> Return (take 60 (Py.strip s)) /\
  length (repeat 97 59 : str) <> 60%nat.
Proof.
  intros s r. split; [reflexivity |]. split; [vm_compute; reflexivity |].
  split; [| vm_compute; lia].
  vm_compute. intros H. discriminate H.
Qed.

(** C9. For a result that carries the three checks, the report exists;
    its last line is the aggregate verdict, with a check mark exactly
    when each of the three fields has its length flag set and no missing
    keyword, and with a cross otherwise; and the report has, for each
    field, a line with the length and the maximum, and a line with the
    mark of its length flag followed by its missing keywords, every one
    of them, joined by commas, or by a dash when none is missing. *)
Theorem pretty_report_verdict (res : SEOResult) (m t s : FieldCheck) :
  checks res !! "meta_description" = Some m ->
  checks res !! "title" = Some t ->
  checks res !! "summary" = Some s ->
  exists (lines : list str) (verdict : bool),
    pretty_report res = Return (Py.join [10] lines) /\
    last lines
      = Some (u"Итоговая метрика (все требования выполнены): "
                ++ (if verdict then u"✓" else u"✗")) /\
    u"✓" <> u"✗" /\
    (verdict = true <->
       (ok_length t = true /\ missing_keywords_ t = []) /\
       (ok_length m = true /\ missing_keywords_ m = []) /\
       (ok_length s = true /\ missing_keywords_ s = [])) /\
    lines !! 4%nat
      = Some (u"TITLE (" ++ Py.str_of_int (length_ t) ++ u"/"
                ++ Py.str_of_int (max_allowed t) ++ u"): " ++ title res) /\
    lines !! 7%nat
      = Some (u"META (" ++ Py.str_of_int (length_ m) ++ u"/"
                ++ Py.str_of_int (max_allowed m) ++ u"): " ++ meta_description res) /\
    lines !! 10%nat
      = Some (u"SUMMARY (" ++ Py.str_of_int (length_ s) ++ u"/"
                ++ Py.str_of_int (max_allowed s) ++ u"): " ++ summary res) /\
    (forall i fc, (i, fc) ∈ [(5%nat, t); (8%nat, m); (11%nat, s)] ->
       exists line,
         lines !! i = Some line /\
         line = u"  Длина ОК: " ++ (if ok_length fc then u"✓" else u"✗")
                  ++ u"; Отсутствуют ключевые: "
                  ++ match missing_keywords_ fc with
                     | [] => u"—"
                     | kws => Py.join u", " kws
                     end /\
         forall kw, kw ∈ missing_keywords_ fc -> Occurs kw line).
Proof.
  intros Hm Ht Hs.
  exists (report_lines res m t s), (field_ok m && field_ok t && field_ok s).
  split; [| split; [| split; [| split]]].
  - unfold pretty_report, getitem. by rewrite Hm, Ht, Hs.
  - unfold report_lines, verdict_line, mark. cbn [last].
    by destruct (field_ok m && field_ok t && field_ok s).
  - vm_compute. discriminate.
  - rewrite !andb_true_iff, !field_ok_spec. tauto.
  - split; [reflexivity |]. split; [reflexivity |]. split; [reflexivity |].
    intros i fc Hi. exists (field_detail fc).
    split; [| apply field_detail_itemizes].
    repeat (apply elem_of_cons in Hi as [[= -> ->] | Hi]; [reflexivity |]).
    by apply elem_of_nil in Hi.
Qed.

Local Abbreviation sample_result :=
  {| topic := u"electric bicycles";
     language := u"en";
     keywords := [u"bicycle"];
     meta_description := u"Buy the best bikes online";
     title := u"Electric bicycle deals";
     summary := u"All about the electric bicycle.";
     checks :=
       <["summary" := _check_field (U := Mock.unicode)
                        u"All about the electric bicycle." 300 (Some [u"bicycle"])]>
         (<["title" := _check_field (U := Mock.unicode)
                         u"Electric bicycle deals" 60 (Some [u"bicycle"])]>
            (<["meta_description" := _check_field (U := Mock.unicode)
                                       u"Buy the best bikes online" 150
                                       (Some [u"bicycle"])]> ∅));
     model_used := u"qwen2.5:3b-instruct";
     timestamp := u"2025-01-01 12:00:00" |}.

Lemma pretty_report_verdict_witness :
  exists lines,
    pretty_report sample_result = Return (Py.join [10] lines) /\
    last lines = Some (u"Итоговая метрика (все требования выполнены): ✗") /\
    lines !! 8%nat = Some (u"  Длина ОК: ✓; Отсутствуют ключевые: bicycle").
Proof.
  destruct (checks_lookup
              (_check_field (U := Mock.unicode) u"Buy the best bikes online" 150
                 (Some [u"bicycle"]))
              (_check_field (U := Mock.unicode) u"Electric bicycle deals" 60
                 (Some [u"bicycle"]))
              (_check_field (U := Mock.unicode) u"All about the electric bicycle." 300
                 (Some [u"bicycle"]))) as (Gm & Gt & Gs).
  destruct (pretty_report_verdict sample_result _ _ _ Gm Gt Gs)
    as (lines & verdict & Hrep & Hlast & _ & Hv & _ & _ & _ & Hdetail).
  exists lines. split; [exact Hrep |]. split.
  - rewrite Hlast. destruct verdict; [| vm_compute; reflexivity].
    destruct Hv as [Hv _]. destruct (Hv eq_refl) as (_ & (_ & Hmiss) & _).
    vm_compute in Hmiss. discriminate Hmiss.
  - destruct (Hdetail 8%nat _ ltac:(apply list_elem_of_further, list_elem_of_here))
      as (line & Hline & -> & _).
    etransitivity; [exact Hline |]. vm_compute. reflexivity.
Defined.

(** C10. At the interface of [run], an empty string as the language is
    treated as no language (the language is detected from the topic),
    and an empty list as the keywords is treated as no keywords (the
    synthesizer runs when it is enabled). *)
Theorem run_empty_arguments {U : Unicode} {E : Env}
    self tp lang_arg kw_arg synth out :
  run self tp (Some []) kw_arg synth out = run self tp None kw_arg synth out /\
  run self tp lang_arg (Some []) synth out = run self tp lang_arg None synth out /\
  (forall st res st',
      run self tp (Some []) kw_arg synth out st = (Return res, st') ->
      language res = detect_language tp) /\
  (forall st res st',
      run self tp lang_arg (Some []) true out st = (Return res, st') ->
      exists st1 c,
        generate_synthetic_keywords self tp (language res) 8 st
          = (Return (keywords res), st1) /\
        answers (keywords_request self tp (language res) 8) c st st1).
Proof.
  split; [reflexivity |]. split; [reflexivity |]. split.
  - intros st res st' H. apply run_Return in H
      as (? & ? & ? & ? & ? & ? & ? & _ & _ & _ & _ & _ & _ & Hlang & _).
    exact Hlang.
  - intros st res st' H. apply run_Return in H
      as (st1 & ? & ? & ? & ? & ? & ? & HK & _ & _ & _ & _ & _ & Hlang & _).
    rewrite Hlang. unfold resolve_keywords in HK. simpl in HK.
    destruct (generate_synthetic_keywords_Return _ _ _ _ _ _ _ HK) as (c & Hc & _).
    by exists st1, c.
Qed.

Lemma run_empty_arguments_witness :
  exists res st',
    run (U := Mock.unicode) (E := Mock.env) default_system u"electric bicycles"
        (Some []) (Some []) true None
        (Mock.start [Mock.says u"electric bike"; Mock.says u"Bikes for all";
                     Mock.says u"Electric bikes"; Mock.says u"About bikes."] true)
    = (Return res, st') /\
    language res = u"en" /\ keywords res = [u"electric bike"].
Proof.
  destruct (run (U := Mock.unicode) (E := Mock.env) default_system u"electric bicycles"
        (Some []) (Some []) true None
        (Mock.start [Mock.says u"electric bike"; Mock.says u"Bikes for all";
                     Mock.says u"Electric bikes"; Mock.says u"About bikes."] true))
    as [[res|e] st'] eqn:H.
  - exists res, st'. split; [reflexivity |].
    destruct (run_empty_arguments (U := Mock.unicode) (E := Mock.env)
                default_system u"electric bicycles" (Some []) (Some []) true None)
      as (_ & _ & Hlang & Hkw).
    split.
    + rewrite (Hlang _ _ _ H). vm_compute. reflexivity.
    + destruct (Hkw _ _ _ H) as (st1 & c & Hgen & _).
      rewrite (Hlang _ _ _ H) in Hgen. revert Hgen.
      generalize (keywords res). intros K HK.
      vm_compute in HK. injection HK as <- _. vm_compute. reflexivity.
  - vm_compute in H. discriminate H.
Defined.

(** * Further properties of the code *)

(** ** Language detection *)

Lemma ascii_char_classes (c : char) :
  c < 128 ->
  ((Py.le u"а" [Py.ascii_lower c] && Py.le [Py.ascii_lower c] u"я")
   || bool_decide (c = 1105)) = false /\
  (Py.le u"a" [Py.ascii_lower c] && Py.le [Py.ascii_lower c] u"z") = is_ascii_letter c.
Proof.
  intros Hc.
  assert (forallb (fun n =>
            let d := N.of_nat n in
            negb ((Py.le u"а" [Py.ascii_lower d] && Py.le [Py.ascii_lower d] u"я")
                  || bool_decide (d = 1105))
            && bool_decide ((Py.le u"a" [Py.ascii_lower d] && Py.le [Py.ascii_lower d] u"z")
                            = is_ascii_letter d))
            (seq 0 128) = true) as Hall by (vm_compute; reflexivity).
  rewrite forallb_forall in Hall.
  specialize (Hall (N.to_nat c)). rewrite N2Nat.id in Hall.
  destruct (andb_prop _ _ (Hall ltac:(apply in_seq; lia))) as [H1 H2].
  split; [by apply negb_true_iff | by apply bool_decide_eq_true in H2].
Qed.

Lemma count_true_nonneg (f : char -> bool) (text : str) : (0 <= count_true f text)%Z.
Proof. induction text as [|c r IH]; simpl; [done |]. destruct (f c); lia. Qed.

Lemma count_true_zero (f : char -> bool) (text : str) :
  (forall c, c ∈ text -> f c = false) -> count_true f text = 0%Z.
Proof.
  induction text as [|c r IH]; [done |]. intros H. simpl.
  rewrite (H c) by apply list_elem_of_here. rewrite IH; [done |].
  intros d Hd. apply H. by apply list_elem_of_further.
Qed.

Lemma count_true_positive (f : char -> bool) (text : str) :
  (0 < count_true f text)%Z <-> existsb f text = true.
Proof.
  induction text as [|c r IH]; simpl; [split; [lia | done] |].
  pose proof (count_true_nonneg f r). destruct (f c); simpl; [split; [done | lia] |].
  rewrite <- IH. split; lia.
Qed.

(** X1. On a text of ASCII characters the detected language is English
    exactly when the text has a Latin letter; without one (digits,
    punctuation, the empty text) the tie goes to Russian. *)
Theorem detect_language_of_ascii {U : Unicode} (text : str) :
  Py.isascii text = true ->
  detect_language text = if existsb is_ascii_letter text then u"en" else u"ru".
Proof.
  intros H. rewrite (detect_language_ascii text H). unfold detect_language.
  assert (forall c, c ∈ text -> c < 128) as Hlt.
  { intros c Hc. unfold Py.isascii in H. rewrite forallb_forall in H.
    apply N.ltb_lt, H. by apply list_elem_of_In. }
  rewrite (count_true_zero (fun ch =>
             (Py.le u"а" (Py.lower (Unicode := Mock.unicode) [ch])
              && Py.le (Py.lower (Unicode := Mock.unicode) [ch]) u"я")
             || bool_decide (ch = 1105)) text)
    by (intros c Hc; apply (ascii_char_classes c (Hlt c Hc))).
  rewrite (count_true_ext (fun ch =>
             Py.le u"a" (Py.lower (Unicode := Mock.unicode) [ch])
             && Py.le (Py.lower (Unicode := Mock.unicode) [ch]) u"z")
             is_ascii_letter text)
    by (intros c Hc; apply (ascii_char_classes c (Hlt c Hc))).
  pose proof (count_true_positive is_ascii_letter text) as Hpos.
  destruct (existsb is_ascii_letter text).
  - destruct (Z.leb_spec (count_true is_ascii_letter text) 0); [| done].
    destruct Hpos as [_ Hpos]. specialize (Hpos eq_refl). lia.
  - destruct (Z.leb_spec (count_true is_ascii_letter text) 0); [done |].
    destruct Hpos as [Hpos _]. by specialize (Hpos ltac:(lia)).
Qed.

Lemma detect_language_of_ascii_witness :
  detect_language (U := Mock.unicode) u"2024: 10%" = u"ru" /\
  detect_language (U := Mock.unicode) u"e-bike 2024" = u"en".
Proof.
  split.
  - rewrite (detect_language_of_ascii (U := Mock.unicode) u"2024: 10%" eq_refl).
    reflexivity.
  - rewrite (detect_language_of_ascii (U := Mock.unicode) u"e-bike 2024" eq_refl).
    reflexivity.
Defined.

(** ** Missing keywords *)

Lemma Occurs_map (f : char -> char) (p s : str) : Occurs p s -> Occurs (map f p) (map f s).
Proof. intros (a & b & ->). exists (map f a), (map f b). by rewrite !map_app. Qed.

(** X2. The empty string is never reported missing, whatever the text;
    and without required keywords nothing is. *)
Theorem empty_keyword_never_missing {U : Unicode} (text : str) (K : list str) :
  ([] ∉ missing_keywords text (Some K)) /\
  missing_keywords text (Some []) = [] /\
  missing_keywords text None = [].
Proof.
  split; [| done]. unfold missing_keywords. destruct K as [|k K']; [apply not_elem_of_nil |].
  intros Hin. apply list_elem_of_filter in Hin as [Hmiss _].
  rewrite (lower_ascii [] eq_refl) in Hmiss. simpl in Hmiss.
  by destruct (lower text).
Qed.

(** X3. In ASCII, a required keyword that occurs in the text, in
    whatever letter case, is not reported missing; one that occurs as it
    is written in particular. *)
Theorem present_keyword_not_missing {U : Unicode} (text kw : str) (K : list str) :
  Py.isascii text = true ->
  Py.isascii kw = true ->
  Occurs (map Py.ascii_lower kw) (map Py.ascii_lower text) \/ Occurs kw text ->
  kw ∉ missing_keywords text (Some K).
Proof.
  intros Ht Hk Hocc Hin.
  assert (Occurs (map Py.ascii_lower kw) (map Py.ascii_lower text)) as Ho.
  { destruct Hocc as [?|?]; [done | by apply Occurs_map]. }
  unfold missing_keywords in Hin. destruct K as [|k K']; [by apply elem_of_nil in Hin |].
  apply list_elem_of_filter in Hin as [Hmiss _].
  rewrite (lower_ascii text Ht), (lower_ascii kw Hk) in Hmiss.
  apply contains_spec in Ho. congruence.
Qed.

Lemma present_keyword_not_missing_witness :
  u"E-Bike" ∉ missing_keywords (U := Mock.unicode) u"Best e-bike deals"
                 (Some [u"bicycle"; u"E-Bike"]).
Proof.
  apply (present_keyword_not_missing (U := Mock.unicode)); [reflexivity | reflexivity |].
  left. apply contains_spec. vm_compute. reflexivity.
Defined.

(** ** The report *)

(** X4. A result whose checks lack a field makes the report fail with a
    [KeyError] for the first field it looks up and does not find: the
    meta description, then the title, then the summary. *)
Theorem pretty_report_missing_key (res : SEOResult) :
  (checks res !! "meta_description" = None ->
   pretty_report res = Raise (KeyError "meta_description")) /\
  (is_Some (checks res !! "meta_description") -> checks res !! "title" = None ->
   pretty_report res = Raise (KeyError "title")) /\
  (is_Some (checks res !! "meta_description") -> is_Some (checks res !! "title") ->
   checks res !! "summary" = None ->
   pretty_report res = Raise (KeyError "summary")).
Proof.
  unfold pretty_report, getitem. split; [| split].
  - by intros ->.
  - intros [m ->] ->. done.
  - intros [m ->] [t ->] ->. done.
Qed.

Lemma pretty_report_missing_key_witness :
  pretty_report {| topic := u"electric bicycles"; language := u"en"; keywords := [];
                   meta_description := u"Bikes for all"; title := u"Bike shop";
                   summary := u"About bikes.";
                   checks := <["meta_description" :=
                                 _check_field (U := Mock.unicode) u"Bikes for all" 150 None]> ∅;
                   model_used := u"qwen2.5:3b-instruct";
                   timestamp := u"2025-01-01 12:00:00" |}
  = Raise (KeyError "title").
Proof.
  apply pretty_report_missing_key.
  - eexists. by simplify_map_eq.
  - by simplify_map_eq.
Defined.

(** X5. Every result [run] returns can be reported: the report exists,
    and since no field of a run is ever too long, its verdict is
    positive exactly when no field misses a keyword; with an empty
    keyword list it is always positive. *)
Theorem run_result_reported {U : Unicode} {E : Env}
    self tp lang_arg kw_arg synth out st res st' :
  run self tp lang_arg kw_arg synth out st = (Return res, st') ->
  exists lines verdict,
    pretty_report res = Return (Py.join [10] lines) /\
    last lines = Some (verdict_line verdict) /\
    (verdict = true <->
       missing_keywords (title res) (Some (keywords res)) = [] /\
       missing_keywords (meta_description res) (Some (keywords res)) = [] /\
       missing_keywords (summary res) (Some (keywords res)) = []) /\
    (keywords res = [] -> verdict = true).
Proof.
  intros H. apply run_Return in H
    as (st1 & st2 & st3 & st4 & cm & ct & cs & _ & _ & _ & _ & _ & _ & _
        & Hm & Ht & Hs & Hch & _).
  set (K := keywords res) in *.
  destruct (checks_lookup (_check_field (meta_description res) 150 (Some K))
                          (_check_field (title res) 60 (Some K))
                          (_check_field (summary res) 300 (Some K))) as (Gm & Gt & Gs).
  rewrite <- Hch in Gm, Gt, Gs.
  pose proof (truncated_length (choice_text ct) 60 ltac:(lia)) as Lt.
  pose proof (truncated_length (choice_text cm) 150 ltac:(lia)) as Lm.
  pose proof (truncated_length (choice_text cs) 300 ltac:(lia)) as Ls.
  rewrite <- Ht in Lt. rewrite <- Hm in Lm. rewrite <- Hs in Ls.
  exists (report_lines res (_check_field (meta_description res) 150 (Some K))
                        (_check_field (title res) 60 (Some K))
                        (_check_field (summary res) 300 (Some K))),
         (field_ok (_check_field (meta_description res) 150 (Some K))
          && field_ok (_check_field (title res) 60 (Some K))
          && field_ok (_check_field (summary res) 300 (Some K))).
  split; [| split; [reflexivity |]].
  { unfold pretty_report, getitem. rewrite Gm, Gt, Gs. reflexivity. }
  assert (forall text limit, (Z.of_nat (length text) <= limit)%Z ->
            field_ok (_check_field text limit (Some K)) = true
            <-> missing_keywords text (Some K) = []) as Hok.
  { intros text limit Hl. rewrite field_ok_spec. simpl.
    apply Z.leb_le in Hl. rewrite Hl. tauto. }
  split.
  - rewrite !andb_true_iff, (Hok _ _ Lm), (Hok _ _ Lt), (Hok _ _ Ls). tauto.
  - intros HK. rewrite !andb_true_iff, (Hok _ _ Lm), (Hok _ _ Lt), (Hok _ _ Ls).
    fold K in HK. rewrite HK. done.
Qed.

Lemma run_result_reported_witness :
  exists res st' lines,
    run (U := Mock.unicode) (E := Mock.env) default_system u"electric bicycles"
        (Some u"en") (Some [u"bicycle"]) true None
        (Mock.start [Mock.says u"Buy the best bikes online"; Mock.says u"Bicycle deals";
                     Mock.says u"All about the bicycle."] true)
    = (Return res, st') /\
    pretty_report res = Return (Py.join [10] lines) /\
    last lines = Some (verdict_line false).
Proof.
  destruct (run (U := Mock.unicode) (E := Mock.env) default_system u"electric bicycles"
        (Some u"en") (Some [u"bicycle"]) true None
        (Mock.start [Mock.says u"Buy the best bikes online"; Mock.says u"Bicycle deals";
                     Mock.says u"All about the bicycle."] true))
    as [[res|e] st'] eqn:H.
  - destruct (run_result_reported _ _ _ _ _ _ _ _ _ H)
      as (lines & verdict & Hrep & Hlast & Hv & _).
    exists res, st', lines. split; [reflexivity |]. split; [exact Hrep |].
    rewrite Hlast. destruct verdict; [| reflexivity].
    destruct Hv as [Hv _]. destruct (Hv eq_refl) as (_ & Hmeta & _).
    revert Hmeta. vm_compute in H. injection H as <- _. vm_compute. discriminate.
  - vm_compute in H. discriminate H.
Defined.

(** ** The service call *)

Lemma strip_idempotent (s : str) : Py.strip (Py.strip s) = Py.strip s.
Proof. apply strip_id; [apply strip_head | apply strip_last]. Qed.

(** X6. [_chat] calls the service exactly once; an exception of the
    service is its outcome, a response without choices makes it raise
    [IndexError], and the text it returns otherwise has no whitespace
    left at either end. *)
Theorem _chat_one_call {E : Env} (self : SEOContentSystem) (m sys usr : str) (mt : Z)
    (st : State) :
  let req := chat_request self m sys usr mt in
  let reply := create req (world st) in
  let r := _chat self m sys usr mt st in
  calls r.2 = calls st ++ [(req, reply.1)] /\
  world r.2 = reply.2 /\
  (forall e, reply.1 = Raise e -> r.1 = Raise e) /\
  (forall resp, reply.1 = Return resp -> choices resp = [] -> r.1 = Raise IndexError) /\
  (forall t, r.1 = Return t -> Py.strip t = t).
Proof.
  simpl. rewrite _chat_eq. simpl.
  destruct (create _ (world st)) as [[resp|e] w]; simpl.
  - destruct (choices resp) as [|c cs] eqn:Hch; simpl.
    + repeat split; try done.
    + repeat split; try done.
      * intros resp' [= <-] Hnil. congruence.
      * intros t [= <-]. apply strip_idempotent.
  - repeat split; try done. by intros e' [= ->].
Qed.

Lemma _chat_one_call_witness :
  (_chat (E := Mock.env) default_system u"qwen2.5:3b-instruct" u"Be brief." u"Hello" 60
     (Mock.start [Return {| choices := [] |}] true)).1 = Raise IndexError.
Proof.
  destruct (_chat_one_call (E := Mock.env) default_system u"qwen2.5:3b-instruct"
              u"Be brief." u"Hello" 60 (Mock.start [Return {| choices := [] |}] true))
    as (_ & _ & _ & Hidx & _).
  apply (Hidx {| choices := [] |}); reflexivity.
Defined.

Section EmitFacts.
Context {U : Unicode} {E : Env}.

Lemma emits_ret {A} (P : Request -> Prop) (a : A) : emits P 0 (ret a).
Proof. intros st. exists []. simpl. rewrite app_nil_r. by repeat split. Qed.

Lemma emits_raise {A} (P : Request -> Prop) (e : exn) : emits P 0 (raise (A := A) e).
Proof. intros st. exists []. simpl. rewrite app_nil_r. by repeat split. Qed.

Lemma emits_le {A} (P : Request -> Prop) (n n' : nat) (m : M A) :
  (n <= n')%nat -> emits P n m -> emits P n' m.
Proof.
  intros Hn Hm st. destruct (Hm st) as (new & H1 & H2 & H3).
  exists new. repeat split; [done | lia | done].
Qed.

Lemma emits_bind {A B} (P : Request -> Prop) (n1 n2 : nat) (m : M A) (k : A -> M B) :
  emits P n1 m -> (forall a, emits P n2 (k a)) -> emits P (n1 + n2) (bind m k).
Proof.
  intros Hm Hk st. destruct (Hm st) as (new1 & H1 & L1 & F1). unfold bind.
  destruct (m st) as [[a|e] st1]; simpl in *.
  - destruct (Hk a st1) as (new2 & H2 & L2 & F2). exists (new1 ++ new2).
    split; [by rewrite H2, H1, app_assoc |].
    split; [rewrite length_app; lia | by apply Forall_app].
  - exists new1. repeat split; [done | lia | done].
Qed.

Lemma emits_write (P : Request -> Prop) (path : str) (res : SEOResult) :
  emits P 0 (write_json path res).
Proof.
  intros st. unfold write_json. destruct (dump_json path res (world st)) as [r w].
  exists []. simpl. rewrite app_nil_r. by repeat split.
Qed.

Lemma emits_strftime (P : Request -> Prop) (fmt : str) : emits P 0 (time_strftime fmt).
Proof.
  intros st. unfold time_strftime. destruct (strftime fmt (world st)) as [s w].
  exists []. simpl. rewrite app_nil_r. by repeat split.
Qed.

Lemma emits__chat (P : Request -> Prop) self (m sys usr : str) (mt : Z) :
  P (chat_request self m sys usr mt) -> emits P 1 (_chat self m sys usr mt).
Proof.
  intros HP st. rewrite _chat_eq. simpl.
  exists [(chat_request self m sys usr mt, (create (chat_request self m sys usr mt) (world st)).1)].
  destruct (create _ (world st)) as [[resp|e] w]; simpl.
  - destruct (choices resp); simpl; repeat split; try done; by repeat constructor.
  - repeat split; try done. by repeat constructor.
Qed.

Lemma request_of_chat self (sys usr : str) (mt : Z) :
  mt ∈ [200; 120; 60; 180]%Z -> request_of self (chat_request self (model self) sys usr mt).
Proof. intros Hmt. repeat split; try done. by exists sys, usr. Qed.

Lemma emits_run self tp lang_arg kw_arg synth out :
  emits (request_of self) 4 (run self tp lang_arg kw_arg synth out).
Proof.
  unfold run. apply (emits_bind _ 1 3).
  { destruct (_ && _); [| apply (emits_le _ 0); [lia | apply emits_ret]].
    unfold generate_synthetic_keywords. destruct (keywords_prompt _ _ _) as [sys usr].
    apply (emits_bind _ 1 0); [| intros; apply emits_ret].
    apply emits__chat, request_of_chat. set_solver. }
  intros K. apply (emits_bind _ 1 2).
  { unfold generate_meta_description. destruct (meta_description_prompt _ _ _) as [sys usr].
    apply (emits_bind _ 1 0); [| intros; apply emits_ret].
    apply emits__chat, request_of_chat. set_solver. }
  intros m. apply (emits_bind _ 1 1).
  { unfold generate_title. destruct (title_prompt _ _ _) as [sys usr].
    apply (emits_bind _ 1 0); [| intros; apply emits_ret].
    apply emits__chat, request_of_chat. set_solver. }
  intros t. apply (emits_bind _ 1 0).
  { unfold generate_summary. destruct (summary_prompt _ _ _) as [sys usr].
    apply (emits_bind _ 1 0); [| intros; apply emits_ret].
    apply emits__chat, request_of_chat. set_solver. }
  intros s. apply (emits_bind _ 0 0); [apply emits_strftime |].
  intros ts. apply (emits_bind _ 0 0); [| intros; apply emits_ret].
  destruct out as [[|? ?]|]; [apply emits_ret | apply emits_write | apply emits_ret].
Qed.

End EmitFacts.

(** X7. Whatever happens in it, a run calls the completion service at
    most four times, and every request it sends carries the system's
    model and sampling parameters, one system and one user message, and
    one of the four token budgets. *)
Theorem run_requests {U : Unicode} {E : Env} self tp lang_arg kw_arg synth out st :
  exists new,
    calls (run self tp lang_arg kw_arg synth out st).2 = calls st ++ new /\
    (length new <= 4)%nat /\
    forall req r, (req, r) ∈ new ->
      req_model req = model self /\
      req_temperature req = temperature self /\
      req_top_p req = top_p self /\
      (exists sys usr, req_messages req = [(u"system", sys); (u"user", usr)]) /\
      req_max_tokens req ∈ [200; 120; 60; 180]%Z.
Proof.
  destruct (emits_run self tp lang_arg kw_arg synth out st) as (new & H1 & H2 & H3).
  exists new. split; [done |]. split; [done |].
  intros req r Hin. rewrite Forall_forall in H3. apply (H3 (req, r) Hin).
Qed.

Lemma run_requests_witness :
  exists new,
    calls (run (U := Mock.unicode) (E := Mock.env) default_system u"electric bicycles"
             None None true None
             (Mock.start [Mock.says u"electric bike"; Mock.says u"Bikes for all";
                          Mock.says u"Bike shop"; Mock.says u"About bikes."] true)).2 = new /\
    length new = 4%nat /\
    Forall (fun c : Request * outcome Response =>
              req_model c.1 = u"qwen2.5:3b-instruct") new.
Proof.
  destruct (run_requests (U := Mock.unicode) (E := Mock.env) default_system
              u"electric bicycles" None None true None
              (Mock.start [Mock.says u"electric bike"; Mock.says u"Bikes for all";
                           Mock.says u"Bike shop"; Mock.says u"About bikes."] true))
    as (new & Hnew & _ & Hall).
  rewrite app_nil_l in Hnew. exists new. split; [exact Hnew |]. split.
  - rewrite <- Hnew. vm_compute. reflexivity.
  - apply Forall_forall. intros [req r] Hin. simpl.
    by destruct (Hall req r Hin) as [-> _].
Defined.

(** ** The generated fields *)

(** Cutting a trimmed text and trimming the cut again leaves a prefix of
    the text, itself trimmed, and the whole text when it fits. *)
Lemma cut_of_trimmed (T : str) (limit : Z) :
  (0 <= limit)%Z ->
  Py.strip T = T ->
  let t := Py.strip (Py.slice_to T limit) in
  t `prefix_of` T /\
  Py.strip t = t /\
  ((Z.of_nat (length T) <= limit)%Z -> t = T).
Proof.
  intros Hl HT t. subst t. rewrite slice_to_nonneg by done.
  set (n := Z.to_nat limit). split; [| split].
  - unfold Py.strip. rewrite lstrip_id.
    + destruct (rstrip_split (take n T)) as [suf [Hs _]].
      etransitivity; [| apply (prefix_take T n)]. by exists suf.
    + intros c Hc. apply (strip_head T). rewrite HT.
      destruct n, T; simpl in *; done.
  - apply strip_idempotent.
  - intros Hlen. rewrite take_ge by lia. exact HT.
Qed.

Lemma choice_text_trimmed (c : Choice) : Py.strip (choice_text c) = choice_text c.
Proof. unfold choice_text. apply strip_idempotent. Qed.

(** X8. Each field of a result is a prefix of the trimmed text the
    service gave for it (nothing is added or rearranged), has no
    whitespace at its ends, and is that whole text when the text fits
    the field's limit. *)
Theorem run_fields_from_answers {U : Unicode} {E : Env}
    self tp lang_arg kw_arg synth out st res st' :
  run self tp lang_arg kw_arg synth out st = (Return res, st') ->
  exists st1 st2 st3 st4 cm ct cs,
    answers (meta_description_request self tp (language res) (Some (keywords res)))
            cm st1 st2 /\
    answers (title_request self tp (language res) (Some (keywords res))) ct st2 st3 /\
    answers (summary_request self tp (language res) (Some (keywords res))) cs st3 st4 /\
    (meta_description res `prefix_of` choice_text cm /\
     title res `prefix_of` choice_text ct /\
     summary res `prefix_of` choice_text cs) /\
    (Py.strip (meta_description res) = meta_description res /\
     Py.strip (title res) = title res /\
     Py.strip (summary res) = summary res) /\
    ((length (choice_text cm) <= 150)%nat -> meta_description res = choice_text cm) /\
    ((length (choice_text ct) <= 60)%nat -> title res = choice_text ct) /\
    ((length (choice_text cs) <= 300)%nat -> summary res = choice_text cs).
Proof.
  intros H. apply run_Return in H
    as (st1 & st2 & st3 & st4 & cm & ct & cs & _ & Am & At & As & _ & _ & Hlang
        & Hm & Ht & Hs & _).
  exists st1, st2, st3, st4, cm, ct, cs. rewrite Hlang.
  destruct (cut_of_trimmed (choice_text cm) 150 ltac:(lia) (choice_text_trimmed cm))
    as (Pm & Sm & Wm).
  destruct (cut_of_trimmed (choice_text ct) 60 ltac:(lia) (choice_text_trimmed ct))
    as (Pt & St & Wt).
  destruct (cut_of_trimmed (choice_text cs) 300 ltac:(lia) (choice_text_trimmed cs))
    as (Ps & Ss & Ws).
  rewrite <- Hm in Pm, Sm, Wm. rewrite <- Ht in Pt, St, Wt. rewrite <- Hs in Ps, Ss, Ws.
  repeat split; try done; intros Hlen; [apply Wm | apply Wt | apply Ws]; lia.
Qed.

Lemma run_fields_from_answers_witness :
  exists res st',
    run (U := Mock.unicode) (E := Mock.env) default_system u"electric bicycles"
        (Some u"en") (Some [u"bike"]) true None
        (Mock.start [Mock.says u"  Bikes for all  "; Mock.says u"Bike shop";
                     Mock.says u"About bikes."] true)
    = (Return res, st') /\
    Py.strip (meta_description res) = meta_description res.
Proof.
  destruct (run (U := Mock.unicode) (E := Mock.env) default_system u"electric bicycles"
        (Some u"en") (Some [u"bike"]) true None
        (Mock.start [Mock.says u"  Bikes for all  "; Mock.says u"Bike shop";
                     Mock.says u"About bikes."] true))
    as [[res|e] st'] eqn:H.
  - exists res, st'. split; [reflexivity |].
    destruct (run_fields_from_answers _ _ _ _ _ _ _ _ _ H)
      as (? & ? & ? & ? & ? & ? & ? & _ & _ & _ & _ & (Hs & _) & _).
    exact Hs.
  - vm_compute in H. discriminate H.
Defined.

(** X9. When [run] has to synthesize the keywords (none supplied,
    synthesis enabled), the result holds at most 8 of them, no two with
    the same lowercase form. *)
Theorem run_synthesized_keywords {U : Unicode} {E : Env}
    self tp lang_arg kw_arg out st res st' :
  or_default kw_arg [] = [] ->
  run self tp lang_arg kw_arg true out st = (Return res, st') ->
  (length (keywords res) <= 8)%nat /\ NoDup (lower <$> keywords res).
Proof.
  intros Hkw H. apply run_Return in H
    as (st1 & _ & _ & _ & _ & _ & _ & HK & _).
  unfold resolve_keywords in HK. rewrite Hkw in HK. simpl in HK.
  apply generate_synthetic_keywords_Return in HK as (c & _ & ->).
  split.
  - pose proof (slice_to_length (dedup_loop (keyword_lines (choice_text c)) ∅ []) 8
                  ltac:(lia)).
    unfold parse_keywords. lia.
  - unfold parse_keywords.
    destruct (slice_to_take (dedup_loop (keyword_lines (choice_text c)) ∅ []) 8) as [m ->].
    rewrite fmap_take. eapply sublist_NoDup; [| apply sublist_take].
    apply dedup_loop_NoDup; [| constructor].
    intros y. simpl. rewrite elem_of_nil. set_solver.
Qed.

Lemma run_synthesized_keywords_witness :
  exists res st',
    run (U := Mock.unicode) (E := Mock.env) default_system u"electric bicycles"
        None (Some []) true None
        (Mock.start [Mock.says (Py.join [10] [u"a"; u"b"; u"c"; u"d"; u"e"; u"f"; u"g";
                                              u"h"; u"i"; u"j"]);
                     Mock.says u"Bikes for all"; Mock.says u"Bike shop";
                     Mock.says u"About bikes."] true)
    = (Return res, st') /\
    (length (keywords res) <= 8)%nat.
Proof.
  destruct (run (U := Mock.unicode) (E := Mock.env) default_system u"electric bicycles"
        None (Some []) true None
        (Mock.start [Mock.says (Py.join [10] [u"a"; u"b"; u"c"; u"d"; u"e"; u"f"; u"g";
                                              u"h"; u"i"; u"j"]);
                     Mock.says u"Bikes for all"; Mock.says u"Bike shop";
                     Mock.says u"About bikes."] true))
    as [[res|e] st'] eqn:H.
  - exists res, st'. split; [reflexivity |].
    by destruct (run_synthesized_keywords (U := Mock.unicode) (E := Mock.env)
                   _ _ _ (Some []) _ _ _ _ eq_refl H) as [Hlen _].
  - vm_compute in H. discriminate H.
Defined.

(** ** The prompts *)

Lemma keyword_clause_mentions (intro kw : str) (K : list str) :
  kw ∈ K -> Occurs kw (keyword_clause intro (Some K)).
Proof.
  intros Hin. unfold keyword_clause. destruct K as [|k K']; [by apply elem_of_nil in Hin |].
  by apply Occurs_after, Occurs_before, Occurs_join.
Qed.

(** X10. In either language, the user instruction of every generative
    step contains the topic as given, and the user instruction of each
    of the three field steps contains every keyword of the list it is
    built with. *)
Theorem prompts_mention_topic_and_keywords (topic lang : str) (K : list str) (n : Z) :
  Occurs topic (keywords_prompt topic lang n).2 /\
  Forall (fun prompt : str -> str -> option (list str) -> str * str =>
            Occurs topic (prompt topic lang (Some K)).2 /\
            forall kw, kw ∈ K -> Occurs kw (prompt topic lang (Some K)).2)
         [meta_description_prompt; title_prompt; summary_prompt].
Proof.
  split.
  - unfold keywords_prompt. destruct (bool_decide _); cbv [snd];
      apply Occurs_after, Occurs_after, Occurs_after, Occurs_here.
  - repeat constructor.
    all: try (unfold meta_description_prompt, title_prompt, summary_prompt;
              destruct (bool_decide _); cbv [snd]; apply Occurs_after, Occurs_here).
    all: intros kw Hkw;
      unfold meta_description_prompt, title_prompt, summary_prompt;
      destruct (bool_decide _); cbv [snd];
      apply Occurs_after, Occurs_after, Occurs_after;
      by apply keyword_clause_mentions.
Qed.

Lemma prompts_mention_topic_and_keywords_witness :
  Occurs u"e-bike" (title_prompt u"electric bicycles" u"ru"
                      (Some [u"bicycle"; u"e-bike"])).2.
Proof.
  destruct (prompts_mention_topic_and_keywords u"electric bicycles" u"ru"
              [u"bicycle"; u"e-bike"] 8) as [_ Hall].
  apply Forall_cons in Hall as [_ Hall]. apply Forall_cons in Hall as [[_ Htitle] _].
  apply Htitle. set_solver.
Defined.

(** ** The synthesizer *)

Lemma strip_markers_head {U : Unicode} (line : str) (c : char) :
  head (strip_markers line) = Some c -> is_marker c = false.
Proof.
  induction line as [|d r IH]; simpl; [done |].
  destruct (is_marker d) eqn:Hd; [done |]. simpl. by intros [= <-].
Qed.

(** X11. Every keyword the synthesizer returns is the cleaned form of a
    line of the answer that is not blank; it does not start with a list
    marker and it does not end with whitespace. *)
Theorem synthesized_keywords_clean {U : Unicode} (text : str) (n : Z) (kw : str) :
  kw ∈ parse_keywords text n ->
  (exists line, line ∈ Py.splitlines text /\ Py.strip line <> []
                /\ kw = Py.strip (strip_markers line)) /\
  (forall c, head kw = Some c -> is_marker c = false) /\
  (forall c, last kw = Some c -> Py.isspace c = false).
Proof.
  intros Hkw. unfold parse_keywords in Hkw.
  assert (kw ∈ keyword_lines text) as Hin.
  { destruct (slice_to_take (dedup_loop (keyword_lines text) ∅ []) n) as [m Hm].
    rewrite Hm, dedup_is_first_seen in Hkw.
    apply elem_of_take in Hkw as (i0 & Hkw & _). apply list_elem_of_lookup_2 in Hkw.
    unfold first_seen in Hkw. apply list_elem_of_fmap in Hkw as ([j x] & -> & Hjx).
    simpl.
    apply list_elem_of_filter in Hjx as [_ Hjx].
    apply elem_of_lookup_imap in Hjx as (i & y & [= -> ->] & Hy).
    by apply list_elem_of_lookup_2 in Hy. }
  unfold keyword_lines in Hin. apply list_elem_of_fmap in Hin as (line & -> & Hline).
  apply list_elem_of_filter in Hline as [Hnb Hline].
  split; [| split].
  - exists line. split; [done |]. split; [| done]. by destruct (Py.strip line).
  - intros c Hc. apply (strip_markers_head line).
    unfold Py.strip in Hc. rewrite lstrip_id in Hc.
    + destruct (rstrip_split (strip_markers line)) as [suf [Hs _]]. rewrite Hs.
      by destruct (Py.rstrip (strip_markers line)).
    + intros d Hd. apply strip_markers_head in Hd. unfold is_marker in Hd.
      by apply orb_false_iff in Hd as [_ Hd].
  - apply strip_last.
Qed.

Lemma synthesized_keywords_clean_witness :
  exists line,
    line ∈ Py.splitlines (Py.join [10] [u"1) e-bike "; u""; u"- cycling"]) /\
    u"e-bike" = Py.strip (strip_markers (U := Mock.unicode) line).
Proof.
  destruct (synthesized_keywords_clean (U := Mock.unicode)
              (Py.join [10] [u"1) e-bike "; u""; u"- cycling"]) 8 u"e-bike")
    as ((line & Hline & _ & Hkw) & _).
  - vm_compute. apply list_elem_of_here.
  - by exists line.
Defined.

Section DedupFacts.
Context {U : Unicode}.

Lemma dedup_loop_complete (rest : list str) (seen : gset str) (result : list str) :
  (forall y, y ∈ seen <-> y ∈ lower <$> result) ->
  forall x, x ∈ result \/ x ∈ rest ->
            lower x ∈ lower <$> dedup_loop rest seen result.
Proof.
  revert seen result. induction rest as [|k r IH]; intros seen result Hseen x Hx.
  - simpl. destruct Hx as [Hx | Hx]; [| by apply elem_of_nil in Hx].
    by apply list_elem_of_fmap_2.
  - simpl. destruct (decide (lower k ∈ seen)) as [Hin | Hnin].
    + destruct Hx as [Hx | [-> | Hx]%elem_of_cons].
      * apply IH; [done | by left].
      * apply Hseen, list_elem_of_fmap in Hin as (z & Hz & Hzin).
        rewrite Hz. apply IH; [done | by left].
      * apply IH; [done | by right].
    + assert (forall y, y ∈ {[lower k]} ∪ seen <-> y ∈ lower <$> (result ++ [k])) as Hseen'.
      { intros y. rewrite fmap_app, elem_of_app, elem_of_union, <- Hseen. simpl.
        rewrite list_elem_of_singleton, elem_of_singleton. tauto. }
      destruct Hx as [Hx | [-> | Hx]%elem_of_cons].
      * apply IH; [done |]. left. apply elem_of_app. by left.
      * apply IH; [done |]. left. apply elem_of_app. right. apply list_elem_of_here.
      * apply IH; [done | by right].
Qed.

Lemma first_seen_length (lines : list str) : (length (first_seen lines) <= length lines)%nat.
Proof.
  unfold first_seen. rewrite length_fmap.
  etransitivity; [apply length_filter |]. by rewrite length_imap.
Qed.

Lemma keyword_lines_length (text : str) :
  (length (keyword_lines text)
   <= length (filter (fun line => Py.strip line <> []) (Py.splitlines text)))%nat.
Proof.
  unfold keyword_lines. rewrite length_map.
  rewrite (list_filter_iff (fun line => Py.truthy (Py.strip line) = true)
             (fun line => Py.strip line <> [])); [done |].
  intros line. by destruct (Py.strip line).
Qed.

End DedupFacts.

(** X12. When the requested count is at least the number of usable
    lines, nothing is cut: the synthesizer returns the first-seen lines,
    and the lowercase form of every usable line is that of a returned
    keyword. *)
Theorem synthesizer_keeps_every_form {U : Unicode} (text : str) (n : Z) :
  (Z.of_nat (length (keyword_lines text)) <= n)%Z ->
  parse_keywords text n = first_seen (keyword_lines text) /\
  forall line, line ∈ keyword_lines text ->
               lower line ∈ lower <$> parse_keywords text n.
Proof.
  intros Hn.
  assert (parse_keywords text n = dedup_loop (keyword_lines text) ∅ []) as Heq.
  { unfold parse_keywords. rewrite slice_to_nonneg by lia. apply take_ge.
    rewrite dedup_is_first_seen. pose proof (first_seen_length (keyword_lines text)). lia. }
  split; [by rewrite Heq, dedup_is_first_seen |].
  intros line Hline. rewrite Heq. apply dedup_loop_complete; [| by right].
  intros y. simpl. rewrite elem_of_nil. split; [by intros ?%elem_of_empty | done].
Qed.

Lemma synthesizer_keeps_every_form_witness :
  Py.lower (Unicode := Mock.unicode) u"E-Bike"
  ∈ Py.lower (Unicode := Mock.unicode)
      <$> parse_keywords (U := Mock.unicode)
            (Py.join [10] [u"1. e-bike"; u"2. cycling"; u"3. E-Bike"]) 8.
Proof.
  apply (synthesizer_keeps_every_form (U := Mock.unicode)).
  - vm_compute. discriminate.
  - vm_compute. apply list_elem_of_further, list_elem_of_further, list_elem_of_here.
Defined.

(** X13. The synthesizer never returns more keywords than the answer
    has lines that are not blank; from an answer without such a line it
    returns none. *)
Theorem synthesizer_bounded_by_lines {U : Unicode} (text : str) (n : Z) :
  (length (parse_keywords text n)
   <= length (filter (fun line => Py.strip line <> []) (Py.splitlines text)))%nat /\
  (Forall (fun line => Py.strip line = []) (Py.splitlines text) ->
   parse_keywords text n = []).
Proof.
  assert (length (parse_keywords text n)
          <= length (filter (fun line => Py.strip line <> []) (Py.splitlines text)))%nat
    as Hle.
  { unfold parse_keywords.
    pose proof (prefix_length _ _ (slice_to_prefix (dedup_loop (keyword_lines text) ∅ []) n)).
    rewrite dedup_is_first_seen in *.
    pose proof (first_seen_length (keyword_lines text)).
    pose proof (keyword_lines_length text). lia. }
  split; [exact Hle |]. intros Hblank.
  assert (filter (fun line => Py.strip line <> []) (Py.splitlines text) = []) as Hnone.
  { clear Hle. induction Hblank as [|line ls Hline _ IH]; [done |].
    rewrite filter_cons_False by (intros Hn; by apply Hn). exact IH. }
  rewrite Hnone in Hle. destruct (parse_keywords text n); [done | simpl in Hle; lia].
Qed.

Lemma synthesizer_bounded_by_lines_witness :
  parse_keywords (U := Mock.unicode) (Py.join [10] [u"  "; u""; [9]]) 8 = [].
Proof.
  apply (synthesizer_bounded_by_lines (U := Mock.unicode)).
  vm_compute. repeat constructor.
Defined.

(** ** The command line *)

(** X14. [main] runs the pipeline with a system of the given model and
    the default sampling parameters, with synthesis on unless
    [--no-synth] was given, and with the output path; when the run
    raises, [main] raises the same and prints nothing; when it returns,
    the report always exists and [main] prints it, whole and once. *)
Theorem main_prints_report {U : Unicode} {E : Env} {C : Console E}
    (args : Args) (st : State) :
  let r := run {| model := arg_model args;
                  temperature := temperature default_system;
                  top_p := top_p default_system |}
               (arg_topic args) (arg_language args) (arg_keywords args)
               (negb (arg_no_synth args)) (Some (arg_out args)) st in
  match r.1 with
  | Raise e => main args st = (Raise e, r.2)
  | Return res =>
      exists lines verdict,
        pretty_report res = Return (Py.join [10] lines) /\
        last lines = Some (verdict_line verdict) /\
        main args st
        = (Return tt, {| world := print (Py.join [10] lines) (world r.2);
                         calls := calls r.2 |})
  end.
Proof.
  simpl. unfold main, new_system, bind.
  destruct (run _ _ _ _ _ _ st) as [[res|e] st1] eqn:H; simpl; [| done].
  apply run_Return in H
    as (? & ? & ? & ? & ? & ? & ? & _ & _ & _ & _ & _ & _ & _ & _ & _ & _ & Hch & _).
  destruct (checks_lookup (_check_field (meta_description res) 150 (Some (keywords res)))
                          (_check_field (title res) 60 (Some (keywords res)))
                          (_check_field (summary res) 300 (Some (keywords res))))
    as (Gm & Gt & Gs).
  rewrite <- Hch in Gm, Gt, Gs.
  eexists (report_lines res _ _ _), _.
  unfold pretty_report, getitem. rewrite Gm, Gt, Gs.
  split; [reflexivity |]. split; reflexivity.
Qed.

Lemma main_prints_report_witness :
  exists out,
    (world (main (U := Mock.unicode) (E := Terminal.env) (C := Terminal.console)
              (default_args u"electric bicycles")
              (Terminal.start [Mock.says u"electric bike"; Mock.says u"Bikes for all";
                               Mock.says u"Electric bike shop";
                               Mock.says u"About the electric bike."] true)).2).2
    = [out] /\
    Occurs (verdict_line false) out.
Proof.
  pose proof (main_prints_report (U := Mock.unicode) (E := Terminal.env)
                (C := Terminal.console) (default_args u"electric bicycles")
                (Terminal.start [Mock.says u"electric bike"; Mock.says u"Bikes for all";
                                 Mock.says u"Electric bike shop";
                                 Mock.says u"About the electric bike."] true)) as H.
  cbv zeta in H. revert H.
  destruct (run _ _ _ _ _ _ _) as [[res|e] st1] eqn:Hrun; cbn [fst snd]; intros H.
  - destruct H as (lines & verdict & Hrep & _ & Hmain).
    revert Hrep Hmain. generalize (Py.join [10] lines). intros out Hrep Hmain.
    rewrite Hmain. cbn [fst snd world print Terminal.console].
    assert ((world st1).2 = []) as -> by (vm_compute in Hrun; by injection Hrun as _ <-).
    eexists. split; [reflexivity |].
    revert Hrep. vm_compute in Hrun. injection Hrun as <- _.
    intros Hrep. vm_compute in Hrep. injection Hrep as <-.
    apply contains_spec. vm_compute. reflexivity.
  - vm_compute in Hrun. discriminate Hrun.
Defined.

(** ** The artifact and the empty answer *)

(** X15. A run that returns, having been given a path, has written the
    very result it returns to that path, as its last effect: the world
    it leaves is the one a successful write of that result produced. *)
Theorem run_writes_what_it_returns {U : Unicode} {E : Env}
    self tp lang_arg kw_arg synth (path : str) st res st' :
  path <> [] ->
  run self tp lang_arg kw_arg synth (Some path) st = (Return res, st') ->
  exists st0,
    run self tp lang_arg kw_arg synth None st = (Return res, st0) /\
    dump_json path res (world st0) = (Return tt, world st') /\
    calls st' = calls st0.
Proof.
  destruct path as [|ch path]; [done |]. intros _ H. unfold run in *.
  apply bind_Return in H as (K & s1 & H1 & H). rewrite (bind_step _ _ _ _ _ H1).
  apply bind_Return in H as (m & s2 & H2 & H). rewrite (bind_step _ _ _ _ _ H2).
  apply bind_Return in H as (t & s3 & H3 & H). rewrite (bind_step _ _ _ _ _ H3).
  apply bind_Return in H as (s & s4 & H4 & H). rewrite (bind_step _ _ _ _ _ H4).
  apply bind_Return in H as (ts & s5 & H5 & H). rewrite (bind_step _ _ _ _ _ H5).
  apply bind_Return in H as (x & s6 & H6 & H). apply ret_Return in H as [<- <-].
  exists s5. split; [reflexivity |].
  unfold write_json in H6. destruct (dump_json _ _ (world s5)) as [r w] eqn:Hd.
  injection H6 as -> <-. simpl. by destruct x.
Qed.

Lemma run_writes_what_it_returns_witness :
  exists res st',
    run (U := Mock.unicode) (E := Mock.env) default_system u"electric bicycles"
        (Some u"en") (Some [u"bike"]) true (Some u"seo_output.json")
        (Mock.start [Mock.says u"Bikes for all"; Mock.says u"Bike shop";
                     Mock.says u"About bikes."] true)
    = (Return res, st') /\
    Mock.written (world st') = [(u"seo_output.json", res)].
Proof.
  destruct (run (U := Mock.unicode) (E := Mock.env) default_system u"electric bicycles"
        (Some u"en") (Some [u"bike"]) true (Some u"seo_output.json")
        (Mock.start [Mock.says u"Bikes for all"; Mock.says u"Bike shop";
                     Mock.says u"About bikes."] true))
    as [[res|e] st'] eqn:H.
  - exists res, st'. split; [reflexivity |].
    destruct (run_writes_what_it_returns (U := Mock.unicode) (E := Mock.env)
                _ _ _ _ _ u"seo_output.json" _ _ _ ltac:(vm_compute; discriminate) H)
      as (st0 & Hrun & Hdump & _).
    assert (Mock.written (world st0) = [] /\ Mock.disk_ok (world st0) = true) as [Hw Hok].
    { revert Hrun. generalize res. intros res0 Hrun.
      vm_compute in Hrun. by injection Hrun as _ <-. }
    simpl in Hdump. unfold Mock.mock_dump_json in Hdump. rewrite Hok, Hw in Hdump.
    by injection Hdump as <-.
  - vm_compute in H. discriminate H.
Defined.

(** X16. Against an empty text (what an empty answer of the service
    becomes) the length check passes for every limit that is not
    negative, and every required keyword is reported missing except
    those whose lowercase form is empty. *)
Theorem check_of_empty_field {U : Unicode} (max_len : Z) (K : list str) :
  let fc := _check_field [] max_len (Some K) in
  length_ fc = 0%Z /\
  (ok_length fc = true <-> (0 <= max_len)%Z) /\
  missing_keywords_ fc = filter (fun kw => lower kw <> []) K.
Proof.
  simpl. split; [done |]. split; [apply Z.leb_le |].
  destruct K as [|k K']; [done |].
  rewrite (lower_ascii [] eq_refl). simpl map.
  apply list_filter_iff. intros kw. by destruct (lower kw).
Qed.
